(** * CalibratorModel: the episode controller of the mini-greenhouse model

    A shallow embedding of [CalibratorModel.py].  The class is a Gymnasium
    environment whose methods mutate [self] and talk to the outside world
    (exchange files, the MATLAB engine, the Keras predictor, MQTT, the
    spreadsheet exporter).  Here

    - Python floats and NumPy [float64] values are primitive binary64 floats,
      the [np.float32] cast of [observation] is a rounding to binary32;
    - [self] is the record [Self], the outside world is the record [World]
      (exchange files and the log of calls made to the collaborators);
    - a method is a function [Self -> World -> (exn + A) * Self * World]: a
      Python exception keeps every mutation made before it was raised;
    - the collaborators whose code is not part of the class (dataset, MATLAB
      script, predictor, unit conversions, metrics) are the fields of the
      class [Collaborators]. *)

From Stdlib Require Import ZArith String List Bool Lia.
From Stdlib Require Import Floats Uint63.
Import ListNotations.

Set Warnings "-inexact-float".
Local Open Scope Z_scope.

(** ** Python sequences *)

Section Sequences.
Context {A : Type}.

(** [l[-k:]] for a positive literal [k]. *)
Definition last_n (k : nat) (l : list A) : list A :=
  skipn (length l - k) l.

(** [l[-k]] for a positive literal [k]; [None] is Python's [IndexError]. *)
Definition index_neg (k : nat) (l : list A) : option A :=
  if (length l <? k)%nat then None else nth_error l (length l - k).

(** Normalisation of one bound of a slice over a sequence of length [len]. *)
Definition slice_bound (len i : Z) : Z :=
  if i <? 0 then Z.max (i + len) 0 else Z.min i len.

(** [l[start:stop]], as [DataFrame.iloc] and lists compute it: bounds
    are clipped, never an error. *)
Definition py_slice (start stop : Z) (l : list A) : list A :=
  let len := Z.of_nat (length l) in
  let a := slice_bound len start in
  let b := slice_bound len stop in
  firstn (Z.to_nat (b - a)) (skipn (Z.to_nat a) l).
End Sequences.

(** ** Numbers *)

(** [np.float32(x)]: round to nearest even at precision 24, overflow to an
    infinity; the result is kept as the binary64 value it denotes. *)
Definition to_f32 (x : float) : float :=
  match Prim2SF x with
  | S754_finite sg m e => SF2Prim (binary_round 24 128 sg m e)
  | _ => x
  end.

Definition float_of_nat (n : nat) : float :=
  PrimFloat.of_uint63 (Uint63.of_Z (Z.of_nat n)).

(** [np.linspace(start, stop, num)] with the default [endpoint=True], as
    NumPy computes it: [arange(num) * step + start] with
    [step = (stop - start) / (num - 1)], the last sample overwritten by
    [stop]. *)
Definition linspace (start stop : float) (num : nat) : list float :=
  let div := (num - 1)%nat in
  let delta := (stop - start)%float in
  let y := map float_of_nat (seq 0 num) in
  let y :=
    if (0 <? div)%nat then
      let step := (delta / float_of_nat div)%float in
      if (step =? 0)%float
      then map (fun v => (v / float_of_nat div * delta)%float) y
      else map (fun v => (v * step)%float) y
    else map (fun v => (v * delta)%float) y in
  let y := map (fun v => (v + start)%float) y in
  if (1 <? num)%nat then firstn (num - 1) y ++ [stop] else y.

(** An ordinary reading and what the cast makes of it. *)
Example to_f32_rounds :
  to_f32 400.1 = 400.10000610351562%float /\
  (to_f32 400.1 =? 400.1)%float = false.
Proof. split; vm_compute; reflexivity. Qed.

(** [1 if x >= 0.5 else 0], the integer kept as a float. *)
Definition threshold (x : float) : float :=
  if (0.5 <=? x)%float then 1%float else 0%float.

(** ** Data *)

(** One row of the historical dataset ([dataset7.xlsx]). *)
Record Row := {
  r_time : float;
  r_global_out : float;
  r_global_in : float;
  r_temp_in : float;
  r_temp_out : float;
  r_rh_in : float;
  r_rh_out : float;
  r_co2_in : float;
  r_co2_out : float;
  r_toplights : float;
  r_ventilation : float;
  r_heater : float
}.

Definition with_toplights (r : Row) (v : float) : Row :=
  Build_Row (r_time r) (r_global_out r) (r_global_in r) (r_temp_in r)
    (r_temp_out r) (r_rh_in r) (r_rh_out r) (r_co2_in r) (r_co2_out r)
    v (r_ventilation r) (r_heater r).

Definition with_ventilation (r : Row) (v : float) : Row :=
  Build_Row (r_time r) (r_global_out r) (r_global_in r) (r_temp_in r)
    (r_temp_out r) (r_rh_in r) (r_rh_out r) (r_co2_in r) (r_co2_out r)
    (r_toplights r) v (r_heater r).

Definition with_heater (r : Row) (v : float) : Row :=
  Build_Row (r_time r) (r_global_out r) (r_global_in r) (r_temp_in r)
    (r_temp_out r) (r_rh_in r) (r_rh_out r) (r_co2_in r) (r_co2_out r)
    (r_toplights r) (r_ventilation r) v.

(** The control dictionary saved to [controls.mat]. *)
Record Controls := {
  c_time : list float;
  c_ventilation : list float;
  c_toplights : list float;
  c_heater : list float
}.

(** The arrays of [drl-env.mat], and the authoritative ([_gl]) buffers that
    accumulate them. *)
Record GlData := {
  time_gl : list float;
  co2_in_predicted_gl : list float;
  temp_in_predicted_gl : list float;
  rh_in_predicted_gl : list float;
  PAR_in_predicted_gl : list float;
  fruit_leaf_predicted_gl : list float;
  fruit_stem_predicted_gl : list float;
  fruit_dw_predicted_gl : list float;
  fruit_cbuf_predicted_gl : list float;
  fruit_tcansum_predicted_gl : list float
}.

(** The predicted ([_nn]) buffers. *)
Record NnData := {
  par_in_predicted_nn : list float;
  temp_in_predicted_nn : list float;
  rh_in_predicted_nn : list float;
  co2_in_predicted_nn : list float
}.

(** The actual ([_excel]) buffers, with the three recorded controls. *)
Record ExcelData := {
  time_excel : list float;
  global_out_excel : list float;
  global_in_excel : list float;
  temp_in_excel : list float;
  temp_out_excel : list float;
  rh_in_excel : list float;
  rh_out_excel : list float;
  co2_in_excel : list float;
  co2_out_excel : list float;
  toplights : list float;
  ventilation : list float;
  heater : list float
}.

(** [indoor.mat] and [fruit.mat]. *)
Record IndoorMat := {
  i_time : list float;
  i_temp_in : list float;
  i_rh_in : list float;
  i_co2_in : list float
}.

Record FruitMat := {
  f_time : list float;
  f_fruit_leaf : list float;
  f_fruit_stem : list float;
  f_fruit_dw : list float;
  f_fruit_cbuf : list float;
  f_fruit_tcansum : list float
}.

Definition gl_map (f : list float -> list float) (d : GlData) : GlData :=
  Build_GlData (f (time_gl d)) (f (co2_in_predicted_gl d))
    (f (temp_in_predicted_gl d)) (f (rh_in_predicted_gl d))
    (f (PAR_in_predicted_gl d)) (f (fruit_leaf_predicted_gl d))
    (f (fruit_stem_predicted_gl d)) (f (fruit_dw_predicted_gl d))
    (f (fruit_cbuf_predicted_gl d)) (f (fruit_tcansum_predicted_gl d)).

(** [np.concatenate] field by field. *)
Definition gl_concat (a b : GlData) : GlData :=
  Build_GlData (time_gl a ++ time_gl b)
    (co2_in_predicted_gl a ++ co2_in_predicted_gl b)
    (temp_in_predicted_gl a ++ temp_in_predicted_gl b)
    (rh_in_predicted_gl a ++ rh_in_predicted_gl b)
    (PAR_in_predicted_gl a ++ PAR_in_predicted_gl b)
    (fruit_leaf_predicted_gl a ++ fruit_leaf_predicted_gl b)
    (fruit_stem_predicted_gl a ++ fruit_stem_predicted_gl b)
    (fruit_dw_predicted_gl a ++ fruit_dw_predicted_gl b)
    (fruit_cbuf_predicted_gl a ++ fruit_cbuf_predicted_gl b)
    (fruit_tcansum_predicted_gl a ++ fruit_tcansum_predicted_gl b).

Definition nn_concat (a b : NnData) : NnData :=
  Build_NnData (par_in_predicted_nn a ++ par_in_predicted_nn b)
    (temp_in_predicted_nn a ++ temp_in_predicted_nn b)
    (rh_in_predicted_nn a ++ rh_in_predicted_nn b)
    (co2_in_predicted_nn a ++ co2_in_predicted_nn b).

Definition excel_concat (a b : ExcelData) : ExcelData :=
  Build_ExcelData (time_excel a ++ time_excel b)
    (global_out_excel a ++ global_out_excel b)
    (global_in_excel a ++ global_in_excel b)
    (temp_in_excel a ++ temp_in_excel b)
    (temp_out_excel a ++ temp_out_excel b)
    (rh_in_excel a ++ rh_in_excel b)
    (rh_out_excel a ++ rh_out_excel b)
    (co2_in_excel a ++ co2_in_excel b)
    (co2_out_excel a ++ co2_out_excel b)
    (toplights a ++ toplights b)
    (ventilation a ++ ventilation b)
    (heater a ++ heater b).

(** The columns of a window of rows, as [.values] extracts them. *)
Definition excel_of_rows (rows : list Row) : ExcelData :=
  Build_ExcelData (map r_time rows) (map r_global_out rows)
    (map r_global_in rows) (map r_temp_in rows) (map r_temp_out rows)
    (map r_rh_in rows) (map r_rh_out rows) (map r_co2_in rows)
    (map r_co2_out rows) (map r_toplights rows) (map r_ventilation rows)
    (map r_heater rows).

(** ** Exceptions, the environment configuration *)

Inductive exn :=
| IndexError
| TypeError
| AttributeError
| ValueError
| FileNotFoundError
| EngineError.

(** [env_config]: a key that is absent is [None]. *)
Record EnvConfig := {
  cfg_flag_run : option bool;
  cfg_online_measurements : option bool;
  cfg_flag_action_from_drl : option bool;
  cfg_first_day : option float;
  cfg_season_length_gl : option float;
  cfg_season_length_nn : option Z;
  cfg_max_steps : option Z
}.

(** [env_config.get(key, default)]. *)
Definition config_get {A : Type} (o : option A) (default : A) : A :=
  match o with
  | Some v => v
  | None => default
  end.

(** ** The outside world *)

(** Calls made to the collaborators, oldest first. *)
Inductive Event :=
| EvPredict (target : string) (X : list Row)
| EvMatlab (season_length first_day : float)
    (outdoor_file indoor_file fruit_file : option string)
| EvOutdoor
| EvPublish (c : Controls)
| EvExport (file_name : string)
| EvPlotAll (file_name : string)
| EvPlotRewards (file_name : string).

(** The five exchange files of the working directory. *)
Inductive FileName :=
| controls_mat
| drl_env_mat
| indoor_mat
| fruit_mat
| outdoor_mat.

Section Controller.

(** The content of [outdoor.mat]; its schema belongs to the IoT service. *)
Variable OutdoorMat : Type.

(** A file that does not exist is [None]. *)
Record Files := {
  file_controls : option Controls;
  file_drl_env : option GlData;
  file_indoor : option IndoorMat;
  file_fruit : option FruitMat;
  file_outdoor : option OutdoorMat
}.

Record World := {
  files : Files;
  log : list Event
}.

(** [o != None], also the test that a file exists. *)
Definition present {A} (o : option A) : bool :=
  match o with
  | Some _ => true
  | None => false
  end.

Definition file_exists (f : FileName) (fs : Files) : bool :=
  match f with
  | controls_mat => present (file_controls fs)
  | drl_env_mat => present (file_drl_env fs)
  | indoor_mat => present (file_indoor fs)
  | fruit_mat => present (file_fruit fs)
  | outdoor_mat => present (file_outdoor fs)
  end.

Definition file_delete (f : FileName) (fs : Files) : Files :=
  match f with
  | controls_mat =>
      Build_Files None (file_drl_env fs) (file_indoor fs) (file_fruit fs)
        (file_outdoor fs)
  | drl_env_mat =>
      Build_Files (file_controls fs) None (file_indoor fs) (file_fruit fs)
        (file_outdoor fs)
  | indoor_mat =>
      Build_Files (file_controls fs) (file_drl_env fs) None (file_fruit fs)
        (file_outdoor fs)
  | fruit_mat =>
      Build_Files (file_controls fs) (file_drl_env fs) (file_indoor fs) None
        (file_outdoor fs)
  | outdoor_mat =>
      Build_Files (file_controls fs) (file_drl_env fs) (file_indoor fs)
        (file_fruit fs) None
  end.

Definition write_controls (c : Controls) (fs : Files) : Files :=
  Build_Files (Some c) (file_drl_env fs) (file_indoor fs) (file_fruit fs)
    (file_outdoor fs).

Definition write_drl_env (d : GlData) (fs : Files) : Files :=
  Build_Files (file_controls fs) (Some d) (file_indoor fs) (file_fruit fs)
    (file_outdoor fs).

Definition write_indoor (d : IndoorMat) (fs : Files) : Files :=
  Build_Files (file_controls fs) (file_drl_env fs) (Some d) (file_fruit fs)
    (file_outdoor fs).

Definition write_fruit (d : FruitMat) (fs : Files) : Files :=
  Build_Files (file_controls fs) (file_drl_env fs) (file_indoor fs) (Some d)
    (file_outdoor fs).

Definition write_outdoor (d : OutdoorMat) (fs : Files) : Files :=
  Build_Files (file_controls fs) (file_drl_env fs) (file_indoor fs)
    (file_fruit fs) (Some d).

(** ** The collaborators *)

(** What the class calls and does not define. *)
Class Collaborators := {
  (** [pd.read_excel(file_path)]. *)
  read_excel : list Row;
  (** [os.path.isfile(self.matlab_script_path)]. *)
  matlab_script_isfile : bool;
  (** [loaded_model.predict] on the scaled features of a window, for the
      model of one target variable: one value per row, or an exception. *)
  model_predict : string -> list Row -> exn + list float;
  (** [eng.DrlGlEnvironment(season_length, first_day, controls_file,
      outdoor_file, indoor_file, fruit_file)]: the script reads the named
      exchange files and leaves its trajectory in [drl-env.mat]. *)
  DrlGlEnvironment :
    float -> float -> string -> option string -> option string ->
    option string -> Files -> exn + GlData;
  (** The unit conversions of [ServiceFunctions], element-wise on arrays. *)
  co2ppm_to_dens : list float -> list float -> list float;
  rh_to_vapor_density : list float -> list float -> list float;
  vapor_density_to_pressure : list float -> list float -> list float;
  (** [ServiceFunctions.get_outdoor_measurements], which leaves the
      measurements in [outdoor.mat]: what it fetches may depend on
      everything exchanged so far. *)
  get_outdoor_measurements : list Event -> exn + OutdoorMat;
  (** [(metrics.r2_score(y_true, y_pred),
       metrics.mean_absolute_error(y_true, y_pred))]. *)
  calculate_metrics : list float -> list float -> exn + float * float
}.

Context {collaborators : Collaborators}.

(** ** The object *)

Record Self := {
  flag_run : bool;
  online_measurements : bool;
  flag_action_from_drl : bool;
  first_day_gl : float;
  season_length_gl : float;
  season_length_nn : Z;
  max_steps : Z;
  mgh_data : list Row;
  ventilation_list : list float;
  toplights_list : list float;
  heater_list : list float;
  rewards_list : list float;
  controls : option Controls;
  step_data : option (list Row);
  excel : option ExcelData;
  nn : option NnData;
  gl : option GlData;
  current_step : Z
}.

Definition set_first_day_gl (v : float) (s : Self) : Self :=
  Build_Self (flag_run s) (online_measurements s) (flag_action_from_drl s)
    v (season_length_gl s) (season_length_nn s) (max_steps s) (mgh_data s)
    (ventilation_list s) (toplights_list s) (heater_list s) (rewards_list s)
    (controls s) (step_data s) (excel s) (nn s) (gl s) (current_step s).

Definition set_season_length_gl (v : float) (s : Self) : Self :=
  Build_Self (flag_run s) (online_measurements s) (flag_action_from_drl s)
    (first_day_gl s) v (season_length_nn s) (max_steps s) (mgh_data s)
    (ventilation_list s) (toplights_list s) (heater_list s) (rewards_list s)
    (controls s) (step_data s) (excel s) (nn s) (gl s) (current_step s).

Definition set_season_length_nn (v : Z) (s : Self) : Self :=
  Build_Self (flag_run s) (online_measurements s) (flag_action_from_drl s)
    (first_day_gl s) (season_length_gl s) v (max_steps s) (mgh_data s)
    (ventilation_list s) (toplights_list s) (heater_list s) (rewards_list s)
    (controls s) (step_data s) (excel s) (nn s) (gl s) (current_step s).

Definition set_mgh_data (v : list Row) (s : Self) : Self :=
  Build_Self (flag_run s) (online_measurements s) (flag_action_from_drl s)
    (first_day_gl s) (season_length_gl s) (season_length_nn s) (max_steps s)
    v (ventilation_list s) (toplights_list s) (heater_list s)
    (rewards_list s) (controls s) (step_data s) (excel s) (nn s) (gl s)
    (current_step s).

Definition set_ventilation_list (v : list float) (s : Self) : Self :=
  Build_Self (flag_run s) (online_measurements s) (flag_action_from_drl s)
    (first_day_gl s) (season_length_gl s) (season_length_nn s) (max_steps s)
    (mgh_data s) v (toplights_list s) (heater_list s) (rewards_list s)
    (controls s) (step_data s) (excel s) (nn s) (gl s) (current_step s).

Definition set_toplights_list (v : list float) (s : Self) : Self :=
  Build_Self (flag_run s) (online_measurements s) (flag_action_from_drl s)
    (first_day_gl s) (season_length_gl s) (season_length_nn s) (max_steps s)
    (mgh_data s) (ventilation_list s) v (heater_list s) (rewards_list s)
    (controls s) (step_data s) (excel s) (nn s) (gl s) (current_step s).

Definition set_heater_list (v : list float) (s : Self) : Self :=
  Build_Self (flag_run s) (online_measurements s) (flag_action_from_drl s)
    (first_day_gl s) (season_length_gl s) (season_length_nn s) (max_steps s)
    (mgh_data s) (ventilation_list s) (toplights_list s) v (rewards_list s)
    (controls s) (step_data s) (excel s) (nn s) (gl s) (current_step s).

Definition set_rewards_list (v : list float) (s : Self) : Self :=
  Build_Self (flag_run s) (online_measurements s) (flag_action_from_drl s)
    (first_day_gl s) (season_length_gl s) (season_length_nn s) (max_steps s)
    (mgh_data s) (ventilation_list s) (toplights_list s) (heater_list s) v
    (controls s) (step_data s) (excel s) (nn s) (gl s) (current_step s).

Definition set_controls (v : option Controls) (s : Self) : Self :=
  Build_Self (flag_run s) (online_measurements s) (flag_action_from_drl s)
    (first_day_gl s) (season_length_gl s) (season_length_nn s) (max_steps s)
    (mgh_data s) (ventilation_list s) (toplights_list s) (heater_list s)
    (rewards_list s) v (step_data s) (excel s) (nn s) (gl s)
    (current_step s).

Definition set_step_data (v : option (list Row)) (s : Self) : Self :=
  Build_Self (flag_run s) (online_measurements s) (flag_action_from_drl s)
    (first_day_gl s) (season_length_gl s) (season_length_nn s) (max_steps s)
    (mgh_data s) (ventilation_list s) (toplights_list s) (heater_list s)
    (rewards_list s) (controls s) v (excel s) (nn s) (gl s) (current_step s).

Definition set_excel (v : option ExcelData) (s : Self) : Self :=
  Build_Self (flag_run s) (online_measurements s) (flag_action_from_drl s)
    (first_day_gl s) (season_length_gl s) (season_length_nn s) (max_steps s)
    (mgh_data s) (ventilation_list s) (toplights_list s) (heater_list s)
    (rewards_list s) (controls s) (step_data s) v (nn s) (gl s)
    (current_step s).

Definition set_nn (v : option NnData) (s : Self) : Self :=
  Build_Self (flag_run s) (online_measurements s) (flag_action_from_drl s)
    (first_day_gl s) (season_length_gl s) (season_length_nn s) (max_steps s)
    (mgh_data s) (ventilation_list s) (toplights_list s) (heater_list s)
    (rewards_list s) (controls s) (step_data s) (excel s) v (gl s)
    (current_step s).

Definition set_gl (v : option GlData) (s : Self) : Self :=
  Build_Self (flag_run s) (online_measurements s) (flag_action_from_drl s)
    (first_day_gl s) (season_length_gl s) (season_length_nn s) (max_steps s)
    (mgh_data s) (ventilation_list s) (toplights_list s) (heater_list s)
    (rewards_list s) (controls s) (step_data s) (excel s) (nn s) v
    (current_step s).

Definition set_current_step (v : Z) (s : Self) : Self :=
  Build_Self (flag_run s) (online_measurements s) (flag_action_from_drl s)
    (first_day_gl s) (season_length_gl s) (season_length_nn s) (max_steps s)
    (mgh_data s) (ventilation_list s) (toplights_list s) (heater_list s)
    (rewards_list s) (controls s) (step_data s) (excel s) (nn s) (gl s) v.

(** ** Methods as state transformers that may raise *)

Definition M (A : Type) : Type := Self -> World -> (exn + A) * Self * World.

Definition ret {A} (a : A) : M A := fun s w => (inr a, s, w).

Definition raise {A} (e : exn) : M A := fun s w => (inl e, s, w).

Definition bind {A B} (m : M A) (k : A -> M B) : M B :=
  fun s w =>
    match m s w with
    | (inr a, s1, w1) => k a s1 w1
    | (inl e, s1, w1) => (inl e, s1, w1)
    end.

Notation "x <- m ;; k" := (bind m (fun x => k))
  (at level 61, m at next level, right associativity).
Notation "m ;; k" := (bind m (fun _ => k))
  (at level 61, right associativity).

(** Reading [self]. *)
Definition self : M Self := fun s w => (inr s, s, w).

(** An assignment to attributes of [self]. *)
Definition assign (f : Self -> Self) : M unit := fun s w => (inr tt, f s, w).

(** An attribute created on first use: reading it before is an
    [AttributeError]. *)
Definition attr {A} (f : Self -> option A) : M A :=
  fun s w =>
    match f s with
    | Some a => (inr a, s, w)
    | None => (inl AttributeError, s, w)
    end.

(** An indexing [l[i]]. *)
Definition item {A} (o : option A) : M A :=
  match o with
  | Some a => ret a
  | None => raise IndexError
  end.

(** The result of a collaborator. *)
Definition external {A} (r : exn + A) : M A :=
  match r with
  | inr a => ret a
  | inl e => raise e
  end.

Definition world : M World := fun s w => (inr w, s, w).

Definition record (e : Event) : M unit :=
  fun s w => (inr tt, s, Build_World (files w) (log w ++ [e])).

Definition write (f : Files -> Files) : M unit :=
  fun s w => (inr tt, s, Build_World (f (files w)) (log w)).

(** [os.remove(name)]. *)
Definition os_remove (f : FileName) : M unit :=
  fun s w =>
    if file_exists f (files w)
    then (inr tt, s, Build_World (file_delete f (files w)) (log w))
    else (inl FileNotFoundError, s, w).

(** ** The methods of [CalibratorModel] *)

(** The empty info dictionary [{}]. *)
Definition Info : Type := list (string * string).

(** An action is [None] or a sequence of floats. *)
Definition Action : Type := option (list float).

(** [_action_drl[i]]; subscripting [None] is a [TypeError]. *)
Definition subscript (a : Action) (i : nat) : M float :=
  match a with
  | None => raise TypeError
  | Some l => item (nth_error l i)
  end.

Definition init_controls : M unit :=
  let time_steps := linspace 300 1200 4 in
  let c :=
    Build_Controls time_steps (repeat 0%float 4) (repeat 0%float 4)
      (repeat 0%float 4) in
  assign (set_controls (Some c)) ;;
  assign (fun s =>
    set_ventilation_list (ventilation_list s ++ last_n 4 (c_ventilation c)) s) ;;
  assign (fun s =>
    set_toplights_list (toplights_list s ++ last_n 4 (c_toplights c)) s) ;;
  assign (fun s =>
    set_heater_list (heater_list s ++ last_n 4 (c_heater c)) s) ;;
  write (write_controls c).

(** A file argument left to [None] is passed to MATLAB as [[]]. *)
Definition run_matlab_script
    (outdoor_file indoor_file fruit_file : option string) : M unit :=
  s <- self ;;
  w <- world ;;
  record (EvMatlab (season_length_gl s) (first_day_gl s)
            outdoor_file indoor_file fruit_file) ;;
  d <- external (DrlGlEnvironment (season_length_gl s) (first_day_gl s)
                   "controls.mat" outdoor_file indoor_file fruit_file
                   (files w)) ;;
  write (write_drl_env d).

(** [self.step_data[column] = values]: pandas refuses values whose length
    differs from the number of rows. *)
Definition set_column (upd : Row -> float -> Row) (values : list float)
    : M unit :=
  rows <- attr step_data ;;
  if (length values =? length rows)%nat
  then assign (set_step_data
                 (Some (map (fun rv => upd (fst rv) (snd rv))
                          (combine rows values))))
  else raise ValueError.

(** The columns other than the three controls are the same before and
    after the controls are overwritten, so all twelve are read off the
    final [step_data]. *)
Definition load_excel_data (_action_drl : Action) : M unit :=
  s <- self ;;
  assign (set_step_data
            (Some (py_slice (season_length_nn s) (season_length_nn s + 4)
                     (mgh_data s)))) ;;
  (if flag_action_from_drl s && present _action_drl then
     a0 <- subscript _action_drl 0 ;;
     a1 <- subscript _action_drl 1 ;;
     a2 <- subscript _action_drl 2 ;;
     let ventilation := repeat (threshold a0) 4 in
     let toplights := repeat (threshold a1) 4 in
     let heater := repeat (threshold a2) 4 in
     set_column with_toplights toplights ;;
     set_column with_ventilation ventilation ;;
     set_column with_heater heater
   else ret tt) ;;
  rows <- attr step_data ;;
  let new := excel_of_rows rows in
  s <- self ;;
  match excel s with
  | None => assign (set_excel (Some new))
  | Some old => assign (set_excel (Some (excel_concat old new)))
  end.

Definition predict_inside_measurements (target_variable : string)
    (data_input : list Row) : M (list float) :=
  record (EvPredict target_variable data_input) ;;
  external (model_predict target_variable data_input).

Definition predicted_inside_measurements_nn (_action_drl : Action)
    : M unit :=
  load_excel_data _action_drl ;;
  rows <- attr step_data ;;
  new_par <- predict_inside_measurements "global in" rows ;;
  new_temp <- predict_inside_measurements "temp in" rows ;;
  new_rh <- predict_inside_measurements "rh in" rows ;;
  new_co2 <- predict_inside_measurements "co2 in" rows ;;
  let new := Build_NnData new_par new_temp new_rh new_co2 in
  s <- self ;;
  match nn s with
  | None => assign (set_nn (Some new))
  | Some old => assign (set_nn (Some (nn_concat old new)))
  end.

Definition predicted_inside_measurements_gl : M unit :=
  w <- world ;;
  data <- match file_drl_env (files w) with
          | Some d => ret d
          | None => raise FileNotFoundError
          end ;;
  let new := gl_map (last_n 4) data in
  s <- self ;;
  match gl s with
  | None => assign (set_gl (Some new))
  | Some old => assign (set_gl (Some (gl_concat old new)))
  end.

Definition observation : M (list float) :=
  g <- attr gl ;;
  co2 <- item (index_neg 1 (co2_in_predicted_gl g)) ;;
  temp <- item (index_neg 1 (temp_in_predicted_gl g)) ;;
  rh <- item (index_neg 1 (rh_in_predicted_gl g)) ;;
  par <- item (index_neg 1 (PAR_in_predicted_gl g)) ;;
  leaf <- item (index_neg 1 (fruit_leaf_predicted_gl g)) ;;
  stem <- item (index_neg 1 (fruit_stem_predicted_gl g)) ;;
  dw <- item (index_neg 1 (fruit_dw_predicted_gl g)) ;;
  cbuf <- item (index_neg 1 (fruit_cbuf_predicted_gl g)) ;;
  tcansum <- item (index_neg 1 (fruit_tcansum_predicted_gl g)) ;;
  ret (map to_f32 [co2; temp; rh; par; leaf; stem; dw; cbuf; tcansum]).

Definition reset : M (list float * Info) :=
  assign (set_current_step 0) ;;
  assign (fun s => set_season_length_nn (season_length_nn s + 4) s) ;;
  obs <- observation ;;
  ret (obs, []).

Definition get_reward (_ventilation _toplights _heater : float) : M float :=
  let w_r_y1 := 1%float in
  let w_r_a1 := 0.005%float in
  let w_r_a2 := 0.015%float in
  let w_r_a3 := 0.001%float in
  s <- self ;;
  if current_step s =? 0 then ret 0%float
  else
    g <- attr gl ;;
    dw1 <- item (index_neg 1 (fruit_dw_predicted_gl g)) ;;
    dw2 <- item (index_neg 2 (fruit_dw_predicted_gl g)) ;;
    let delta_fruit_dw := (dw1 - dw2)%float in
    ret (w_r_y1 * delta_fruit_dw
         - ((w_r_a1 * _ventilation) + (w_r_a2 * _toplights)
            + (w_r_a3 * _heater)))%float.

Definition delete_files : M unit :=
  os_remove controls_mat ;;
  os_remove drl_env_mat ;;
  os_remove indoor_mat ;;
  os_remove fruit_mat ;;
  s <- self ;;
  if online_measurements s then os_remove outdoor_mat else ret tt.

Definition Metrics : Type := list (string * (float * float)).

Definition evaluate_predictions : M (Metrics * Metrics) :=
  e <- attr excel ;;
  n <- attr nn ;;
  g <- attr gl ;;
  par_nn <- external (calculate_metrics (global_in_excel e)
                        (par_in_predicted_nn n)) ;;
  temp_nn <- external (calculate_metrics (temp_in_excel e)
                         (temp_in_predicted_nn n)) ;;
  rh_nn <- external (calculate_metrics (rh_in_excel e)
                       (rh_in_predicted_nn n)) ;;
  co2_nn <- external (calculate_metrics (co2_in_excel e)
                        (co2_in_predicted_nn n)) ;;
  par_gl <- external (calculate_metrics (global_in_excel e)
                        (PAR_in_predicted_gl g)) ;;
  temp_gl <- external (calculate_metrics (temp_in_excel e)
                         (temp_in_predicted_gl g)) ;;
  rh_gl <- external (calculate_metrics (rh_in_excel e)
                       (rh_in_predicted_gl g)) ;;
  co2_gl <- external (calculate_metrics (co2_in_excel e)
                        (co2_in_predicted_gl g)) ;;
  ret ([("PAR", par_nn); ("Temperature", temp_nn); ("Humidity", rh_nn);
        ("CO2", co2_nn)]%string,
       [("PAR", par_gl); ("Temperature", temp_gl); ("Humidity", rh_gl);
        ("CO2", co2_gl)]%string).

(** The lengths printed first need the three groups of buffers to exist;
    the export and the two plots are calls to the persistence service. *)
Definition print_and_save_all_data (file_name : string) : M unit :=
  _ <- attr excel ;;
  _ <- attr nn ;;
  _ <- attr gl ;;
  _ <- evaluate_predictions ;;
  record (EvExport file_name) ;;
  record (EvPlotAll "output/output_all_data.png") ;;
  record (EvPlotRewards "output/output_rewards_action.png").

Definition done : M bool :=
  s <- self ;;
  if flag_run s then
    if current_step s >=? max_steps s then
      (if online_measurements s
       then print_and_save_all_data "output/output_simulated_data_online.xlsx"
       else print_and_save_all_data
              "output/output_simulated_data_offline.xlsx") ;;
      delete_files ;;
      ret true
    else ret false
  else
    if current_step s >=? max_steps s then ret true else ret false.

(** The control vector of one epoch: the block of [step] that turns the
    action, or the last window of the dataset, into four sub-steps. *)
Definition step_controls (_action_drl : Action) : M Controls :=
  s <- self ;;
  if flag_action_from_drl s then
    a0 <- subscript _action_drl 0 ;;
    a1 <- subscript _action_drl 1 ;;
    a2 <- subscript _action_drl 2 ;;
    let time_steps := linspace 300 1200 4 in
    ret (Build_Controls time_steps (repeat (threshold a0) 4)
           (repeat (threshold a1) 4) (repeat (threshold a2) 4))
  else
    let time_steps := linspace 300 1200 4 in
    e <- attr excel ;;
    ret (Build_Controls time_steps (last_n 4 (ventilation e))
           (last_n 4 (toplights e)) (last_n 4 (heater e))).

(** The tuple returned by [step]: observation, reward, terminated,
    truncated, info. *)
Definition StepResult : Type := list float * float * bool * bool * Info.

Definition step (_action_drl : Action) : M StepResult :=
  assign (fun s => set_current_step (current_step s + 1) s) ;;
  predicted_inside_measurements_nn _action_drl ;;
  c <- step_controls _action_drl ;;
  assign (fun s =>
    set_ventilation_list (ventilation_list s ++ last_n 4 (c_ventilation c)) s) ;;
  assign (fun s =>
    set_toplights_list (toplights_list s ++ last_n 4 (c_toplights c)) s) ;;
  assign (fun s =>
    set_heater_list (heater_list s ++ last_n 4 (c_heater c)) s) ;;
  s <- self ;;
  (if online_measurements s then record (EvPublish c) else ret tt) ;;
  write (write_controls c) ;;
  assign (set_season_length_gl (1 / 72)%float) ;;
  assign (fun s => set_first_day_gl (first_day_gl s + 1 / 72)%float s) ;;
  assign (fun s => set_season_length_nn (season_length_nn s + 4) s) ;;
  g <- attr gl ;;
  let co2_density_gl :=
    co2ppm_to_dens (last_n 4 (temp_in_predicted_gl g))
      (last_n 4 (co2_in_predicted_gl g)) in
  let vapor_density_gl :=
    rh_to_vapor_density (last_n 4 (temp_in_predicted_gl g))
      (last_n 4 (rh_in_predicted_gl g)) in
  let vapor_pressure_gl :=
    vapor_density_to_pressure (last_n 4 (temp_in_predicted_gl g))
      vapor_density_gl in
  write (write_indoor
           (Build_IndoorMat (last_n 3 (time_gl g))
              (last_n 3 (temp_in_predicted_gl g))
              (last_n 3 vapor_pressure_gl) (last_n 3 co2_density_gl))) ;;
  write (write_fruit
           (Build_FruitMat (last_n 1 (time_gl g))
              (last_n 1 (fruit_leaf_predicted_gl g))
              (last_n 1 (fruit_stem_predicted_gl g))
              (last_n 1 (fruit_dw_predicted_gl g))
              (last_n 1 (fruit_cbuf_predicted_gl g))
              (last_n 1 (fruit_tcansum_predicted_gl g)))) ;;
  (if online_measurements s
   then
     w <- world ;;
     record EvOutdoor ;;
     o <- external (get_outdoor_measurements (log w)) ;;
     write (write_outdoor o)
   else ret tt) ;;
  (if online_measurements s
   then run_matlab_script (Some "outdoor.mat") (Some "indoor.mat")
          (Some "fruit.mat")
   else run_matlab_script None (Some "indoor.mat") (Some "fruit.mat"))%string ;;
  predicted_inside_measurements_gl ;;
  v0 <- item (nth_error (c_ventilation c) 0) ;;
  t0 <- item (nth_error (c_toplights c) 0) ;;
  h0 <- item (nth_error (c_heater c) 0) ;;
  _reward <- get_reward v0 t0 h0 ;;
  assign (fun s => set_rewards_list (rewards_list s ++ repeat _reward 4) s) ;;
  let truncated := false in
  obs <- observation ;;
  terminated <- done ;;
  ret (obs, _reward, terminated, truncated, []).

(** The attributes of a fresh object: the configuration with its
    defaults; nothing else exists yet ([current_step] is first assigned
    by [reset], and is not read before). *)
Definition new_self (env_config : EnvConfig) : Self :=
  {| flag_run := config_get (cfg_flag_run env_config) true;
     online_measurements :=
       config_get (cfg_online_measurements env_config) false;
     flag_action_from_drl :=
       config_get (cfg_flag_action_from_drl env_config) false;
     first_day_gl := config_get (cfg_first_day env_config) 1%float;
     season_length_gl :=
       config_get (cfg_season_length_gl env_config) (1 / 72)%float;
     season_length_nn := config_get (cfg_season_length_nn env_config) 0;
     max_steps := config_get (cfg_max_steps env_config) 4;
     mgh_data := [];
     ventilation_list := [];
     toplights_list := [];
     heater_list := [];
     rewards_list := [];
     controls := None;
     step_data := None;
     excel := None;
     nn := None;
     gl := None;
     current_step := 0 |}.

Definition __init__ (env_config : EnvConfig) (w : World)
    : (exn + unit) * Self * World :=
  (assign (set_mgh_data read_excel) ;;
   let reward := 0%float in
   assign (fun s => set_rewards_list (rewards_list s ++ repeat reward 4) s) ;;
   (if matlab_script_isfile then
      init_controls ;;
      s <- self ;;
      if online_measurements s then
        w <- world ;;
        record EvOutdoor ;;
        o <- external (get_outdoor_measurements (log w)) ;;
        write (write_outdoor o) ;;
        run_matlab_script (Some "outdoor.mat"%string) None None
      else run_matlab_script None None None
    else ret tt) ;;
   predicted_inside_measurements_gl ;;
   predicted_inside_measurements_nn None ;;
   _ <- reset ;;
   ret tt) (new_self env_config) w.

(** ** Reasoning about methods *)

Definition outcome {A} (x : (exn + A) * Self * World) : exn + A :=
  fst (fst x).
Definition state_of {A} (x : (exn + A) * Self * World) : Self :=
  snd (fst x).
Definition world_of {A} (x : (exn + A) * Self * World) : World := snd x.

Lemma bind_inr {A B} (m : M A) (k : A -> M B) s w b s' w' :
  bind m k s w = (inr b, s', w') ->
  exists a s1 w1, m s w = (inr a, s1, w1) /\ k a s1 w1 = (inr b, s', w').
Proof.
  unfold bind. destruct (m s w) as [[[e | a] s1] w1]; intros H.
  - discriminate.
  - now exists a, s1, w1.
Qed.

Lemma bind_eq {A B} (m : M A) (k : A -> M B) s w a s1 w1 :
  m s w = (inr a, s1, w1) -> bind m k s w = k a s1 w1.
Proof. unfold bind. now intros ->. Qed.

Lemma bind_assign {B} f (k : unit -> M B) s w :
  bind (assign f) k s w = k tt (f s) w.
Proof. reflexivity. Qed.

Lemma bind_raise {A B} (m : M A) (k : A -> M B) s w e s1 w1 :
  m s w = (inl e, s1, w1) -> bind m k s w = (inl e, s1, w1).
Proof. unfold bind. now intros ->. Qed.

(** ** Sequences and numbers *)

Lemma index_neg_last {A} (l : list A) (x : A) :
  index_neg 1 (l ++ [x]) = Some x.
Proof.
  unfold index_neg. rewrite length_app. cbn [length].
  replace (length l + 1 <? 1)%nat with false
    by (symmetry; apply Nat.ltb_ge; lia).
  replace (length l + 1 - 1)%nat with (length l + 0)%nat by lia.
  now rewrite nth_error_app2, Nat.add_comm, Nat.add_sub by lia.
Qed.

Lemma index_neg_last2 {A} (l : list A) (x y : A) :
  index_neg 1 (l ++ [x; y]) = Some y /\ index_neg 2 (l ++ [x; y]) = Some x.
Proof.
  split.
  - change [x; y] with ([x] ++ [y]). rewrite app_assoc.
    apply index_neg_last.
  - unfold index_neg. rewrite length_app. cbn [length].
    replace (length l + 2 <? 2)%nat with false
      by (symmetry; apply Nat.ltb_ge; lia).
    replace (length l + 2 - 2)%nat with (length l) by lia.
    rewrite nth_error_app2 by lia. now rewrite Nat.sub_diag.
Qed.

Lemma index_neg_some {A} (l : list A) :
  l <> [] -> exists x, index_neg 1 l = Some x.
Proof.
  intros H. destruct (exists_last H) as (l' & x & ->).
  exists x. apply index_neg_last.
Qed.

Lemma time_steps_eq :
  linspace 300 1200 4 = [300; 600; 900; 1200]%float.
Proof. vm_compute. reflexivity. Qed.





(** ** The reward *)

Lemma get_reward_initial s w v t h :
  current_step s = 0 -> get_reward v t h s w = (inr 0%float, s, w).
Proof. intros H0. unfold get_reward, bind, self. now rewrite H0. Qed.

Lemma get_reward_later s w g l a b v t h :
  current_step s <> 0 ->
  gl s = Some g ->
  fruit_dw_predicted_gl g = l ++ [a; b] ->
  get_reward v t h s w
  = (inr (1 * (b - a) - (0.005 * v + 0.015 * t + 0.001 * h))%float, s, w).
Proof.
  intros Hk Hg Hdw. unfold get_reward, bind, self, attr.
  replace (current_step s =? 0) with false
    by (symmetry; now apply Z.eqb_neq).
  rewrite Hg, Hdw.
  destruct (index_neg_last2 l a b) as [-> ->]. reflexivity.
Qed.

(** C1.  At epoch 0 ([current_step == 0]) [get_reward] returns exactly
    [0.0] whatever the controls; at an epoch [k > 0], with [b] and [a] the
    last and the last but one samples of the authoritative fruit dry
    weight, it returns [1*(b - a) - (0.005*ventilation + 0.015*toplights
    + 0.001*heater)].  Neither case changes the object or the world. *)
Theorem get_reward_spec :
  (forall s w v t h,
      current_step s = 0 ->
      get_reward v t h s w = (inr 0%float, s, w)) /\
  (forall s w g l a b v t h,
      0 < current_step s ->
      gl s = Some g ->
      fruit_dw_predicted_gl g = l ++ [a; b] ->
      get_reward v t h s w
      = (inr (1 * (b - a) - (0.005 * v + 0.015 * t + 0.001 * h))%float,
         s, w)).
Proof.
  split.
  - apply get_reward_initial.
  - intros s w g l a b v t h Hk. apply get_reward_later. lia.
Qed.

(** The instance of the spec's test: one unit of ventilation, no light,
    no heating cost exactly [0.005]. *)
Lemma get_reward_ventilation_only s w g l a b :
  current_step s <> 0 ->
  gl s = Some g ->
  fruit_dw_predicted_gl g = l ++ [a; b] ->
  get_reward 1 0 0 s w = (inr (1 * (b - a) - 0.005)%float, s, w).
Proof. apply get_reward_later. Qed.

(** ** Weakest preconditions

    [wp m Q s w] holds when [Q] holds of the outcome, the object and the
    world that [m] leaves when run from [s] and [w]. *)

Definition wp {A} (m : M A) (Q : exn + A -> Self -> World -> Prop)
    (s : Self) (w : World) : Prop :=
  Q (outcome (m s w)) (state_of (m s w)) (world_of (m s w)).

Lemma wp_run {A} (m : M A) Q s w r s' w' :
  wp m Q s w -> m s w = (r, s', w') -> Q r s' w'.
Proof. unfold wp. intros H E. now rewrite E in H. Qed.

Lemma wp_bind {A B} (m : M A) (k : A -> M B) Q s w :
  wp m (fun r s1 w1 =>
          match r with
          | inr a => wp (k a) Q s1 w1
          | inl e => Q (inl e) s1 w1
          end) s w ->
  wp (bind m k) Q s w.
Proof.
  unfold wp, bind. destruct (m s w) as [[[e | a] s1] w1]; trivial.
Qed.

Lemma wp_ret {A} (a : A) Q s w : Q (inr a) s w -> wp (ret a) Q s w.
Proof. trivial. Qed.

Lemma wp_raise {A} e (Q : exn + A -> _) s w :
  Q (inl e) s w -> wp (raise e) Q s w.
Proof. trivial. Qed.

Lemma wp_self Q s w : Q (inr s) s w -> wp self Q s w.
Proof. trivial. Qed.

Lemma wp_world Q s w : Q (inr w) s w -> wp world Q s w.
Proof. trivial. Qed.

Lemma wp_assign f Q s w : Q (inr tt) (f s) w -> wp (assign f) Q s w.
Proof. trivial. Qed.

Lemma wp_record e Q s w :
  Q (inr tt) s (Build_World (files w) (log w ++ [e])) -> wp (record e) Q s w.
Proof. trivial. Qed.

Lemma wp_write f Q s w :
  Q (inr tt) s (Build_World (f (files w)) (log w)) -> wp (write f) Q s w.
Proof. trivial. Qed.

Lemma wp_attr {A} (f : Self -> option A) Q s w :
  match f s with
  | Some a => Q (inr a) s w
  | None => Q (inl AttributeError) s w
  end ->
  wp (attr f) Q s w.
Proof. unfold wp, attr. now destruct (f s). Qed.

Lemma wp_item {A} (o : option A) Q s w :
  match o with
  | Some a => Q (inr a) s w
  | None => Q (inl IndexError) s w
  end ->
  wp (item o) Q s w.
Proof. now destruct o. Qed.

Lemma wp_external {A} (r : exn + A) Q s w :
  match r with
  | inr a => Q (inr a) s w
  | inl e => Q (inl e) s w
  end ->
  wp (external r) Q s w.
Proof. now destruct r. Qed.

Lemma wp_os_remove f Q s w :
  (if file_exists f (files w)
   then Q (inr tt) s (Build_World (file_delete f (files w)) (log w))
   else Q (inl FileNotFoundError) s w) ->
  wp (os_remove f) Q s w.
Proof. unfold wp, os_remove. now destruct (file_exists f (files w)). Qed.

Lemma wp_conseq {A} (m : M A) (Q1 Q2 : exn + A -> Self -> World -> Prop)
    s w :
  wp m Q1 s w -> (forall r s' w', Q1 r s' w' -> Q2 r s' w') -> wp m Q2 s w.
Proof. unfold wp. auto. Qed.

(** A buffer created on first use: the value it holds after one more
    batch, whether it existed or not. *)
Definition appended {A} (cat : A -> A -> A) (o : option A) (new : A) : A :=
  match o with
  | None => new
  | Some old => cat old new
  end.

Lemma wp_append_excel new o Q s w :
  Q (inr tt) (set_excel (Some (appended excel_concat o new)) s) w ->
  wp (match o with
      | None => assign (set_excel (Some new))
      | Some old => assign (set_excel (Some (excel_concat old new)))
      end) Q s w.
Proof. now destruct o. Qed.

Lemma wp_append_nn new o Q s w :
  Q (inr tt) (set_nn (Some (appended nn_concat o new)) s) w ->
  wp (match o with
      | None => assign (set_nn (Some new))
      | Some old => assign (set_nn (Some (nn_concat old new)))
      end) Q s w.
Proof. now destruct o. Qed.

Lemma wp_append_gl new o Q s w :
  Q (inr tt) (set_gl (Some (appended gl_concat o new)) s) w ->
  wp (match o with
      | None => assign (set_gl (Some new))
      | Some old => assign (set_gl (Some (gl_concat old new)))
      end) Q s w.
Proof. now destruct o. Qed.

(** Symbolic execution of a method: the object and the world are kept in
    constructor form, so that every projection of an updated record
    reduces at once. *)

Ltac simp_state :=
  cbn [flag_run online_measurements flag_action_from_drl first_day_gl
       season_length_gl season_length_nn max_steps mgh_data ventilation_list
       toplights_list heater_list rewards_list controls step_data excel nn
       gl current_step set_first_day_gl set_season_length_gl
       set_season_length_nn set_mgh_data set_ventilation_list
       set_toplights_list set_heater_list set_rewards_list set_controls
       set_step_data set_excel set_nn set_gl set_current_step files log
       file_controls file_drl_env file_indoor file_fruit file_outdoor
       write_controls write_drl_env write_indoor write_fruit write_outdoor
       file_exists file_delete present c_time c_ventilation c_toplights
       c_heater nth_error].

Ltac head_of t :=
  lazymatch t with
  | ?f _ => head_of f
  | _ => t
  end.

Ltac wp_case :=
  cbv beta iota zeta; simp_state;
  lazymatch goal with
  | |- match ?x with _ => _ end => destruct x eqn:?
  | |- _ => idtac
  end.

Ltac wp_step :=
  lazymatch goal with
  | |- wp (bind _ _) _ _ _ => apply wp_bind
  | |- wp (ret _) _ _ _ => apply wp_ret
  | |- wp (raise _) _ _ _ => apply wp_raise
  | |- wp self _ _ _ => apply wp_self
  | |- wp world _ _ _ => apply wp_world
  | |- wp (assign _) _ _ _ => apply wp_assign
  | |- wp (record _) _ _ _ => apply wp_record
  | |- wp (write _) _ _ _ => apply wp_write
  | |- wp (attr _) _ _ _ => apply wp_attr; wp_case
  | |- wp (item _) _ _ _ => apply wp_item; wp_case
  | |- wp (external _) _ _ _ => apply wp_external; wp_case
  | |- wp (os_remove _) _ _ _ => apply wp_os_remove; wp_case
  | |- wp (match _ with Some _ => assign _ | None => assign _ end) _ _ _ =>
      first [apply wp_append_excel | apply wp_append_nn | apply wp_append_gl]
  | |- wp (match ?x with _ => _ end) _ _ _ => destruct x eqn:?
  | |- wp ?m _ _ _ => let h := head_of m in unfold h
  end;
  cbv beta iota zeta; simp_state.

Ltac wp_start s w :=
  destruct s; destruct w as [[? ? ? ? ?] ?]; simp_state;
  repeat match goal with
         | H : _ |- _ => progress cbn in H
         end;
  subst.

Ltac wp_exec := repeat wp_step.

(** Methods that leave the object as it is. *)

Lemma observation_pure s w :
  state_of (observation s w) = s /\ world_of (observation s w) = w.
Proof.
  change (wp observation (fun _ s' w' => s' = s /\ w' = w) s w).
  wp_exec; split; reflexivity.
Qed.

Lemma get_reward_pure v t h s w :
  state_of (get_reward v t h s w) = s /\
  world_of (get_reward v t h s w) = w.
Proof.
  change (wp (get_reward v t h) (fun _ s' w' => s' = s /\ w' = w) s w).
  wp_exec; split; reflexivity.
Qed.

Lemma done_self s w : state_of (done s w) = s.
Proof.
  change (wp done (fun _ s' _ => s' = s) s w).
  wp_exec; reflexivity.
Qed.

Lemma wp_observation Q s w :
  Q (outcome (observation s w)) s w -> wp observation Q s w.
Proof. unfold wp. now destruct (observation_pure s w) as [-> ->]. Qed.

Lemma wp_get_reward v t h Q s w :
  Q (outcome (get_reward v t h s w)) s w -> wp (get_reward v t h) Q s w.
Proof. unfold wp. now destruct (get_reward_pure v t h s w) as [-> ->]. Qed.

Lemma wp_done Q s w :
  Q (outcome (done s w)) s (world_of (done s w)) -> wp done Q s w.
Proof. unfold wp. now rewrite done_self. Qed.

(** Execution that takes the three methods above as single steps. *)
Ltac wp_call :=
  lazymatch goal with
  | |- wp observation _ _ _ => apply wp_observation; wp_case
  | |- wp (get_reward _ _ _) _ _ _ => apply wp_get_reward; wp_case
  | |- wp done _ _ _ => apply wp_done; wp_case
  | |- _ => wp_step
  end;
  cbv beta iota zeta; simp_state.

Ltac wp_go := repeat wp_call.

(** ** The epoch counter and termination *)

Lemma step_increments a s w :
  wp (step a)
    (fun _ s' _ =>
       current_step s' = current_step s + 1 /\ max_steps s' = max_steps s)
    s w.
Proof. wp_start s w. wp_go; split; reflexivity. Qed.

Lemma done_below s w :
  current_step s < max_steps s -> done s w = (inr false, s, w).
Proof.
  intros H. unfold done, bind, self.
  replace (current_step s >=? max_steps s) with false
    by (symmetry; rewrite Z.geb_leb; apply Z.leb_gt; lia).
  now destruct (flag_run s).
Qed.

Lemma done_training s w :
  flag_run s = false ->
  max_steps s <= current_step s ->
  done s w = (inr true, s, w).
Proof.
  intros Hrun H. unfold done, bind, self. rewrite Hrun.
  replace (current_step s >=? max_steps s) with true
    by (symmetry; rewrite Z.geb_leb; apply Z.leb_le; lia).
  reflexivity.
Qed.

Lemma done_reached s w b :
  max_steps s <= current_step s ->
  outcome (done s w) = inr b ->
  b = true.
Proof.
  intros H. destruct (flag_run s) eqn:Hrun.
  - unfold done. unfold bind at 1. unfold self. rewrite Hrun.
    replace (current_step s >=? max_steps s) with true
      by (symmetry; rewrite Z.geb_leb; apply Z.leb_le; lia).
    match goal with
    | |- outcome (?m s w) = _ -> _ =>
        destruct (m s w) as [[r s'] w'] eqn:E
    end.
    cbn [outcome fst]. intros ->.
    apply bind_inr in E as (_ & s1 & w1 & _ & E).
    apply bind_inr in E as (_ & s2 & w2 & _ & E).
    now inversion E.
  - rewrite (done_training s w Hrun H). cbn. now intros [= <-].
Qed.

Lemma done_outcome s w b :
  outcome (done s w) = inr b ->
  (b = true <-> max_steps s <= current_step s).
Proof.
  intros E. destruct (Z_lt_le_dec (current_step s) (max_steps s)) as [Hlt | Hle].
  - rewrite (done_below s w Hlt) in E. cbn in E. injection E as <-.
    split; [discriminate | lia].
  - split; [trivial | intros _; exact (done_reached s w b Hle E)].
Qed.


Lemma step_terminated a s w :
  wp (step a)
    (fun r _ _ =>
       match r with
       | inr (_, _, terminated, truncated, _) =>
           (terminated = true <-> max_steps s <= current_step s + 1) /\
           truncated = false
       | inl _ => True
       end) s w.
Proof.
  wp_start s w. wp_go; trivial.
  all: split; [| reflexivity].
  all: match goal with
  | E : outcome (done _ _) = inr _ |- _ =>
      apply done_outcome in E; exact E
  end.
Qed.


(** ** Reset *)

Lemma observation_gl s1 w1 s2 w2 :
  gl s1 = gl s2 ->
  outcome (observation s1 w1) = outcome (observation s2 w2).
Proof.
  intros H. unfold observation, bind, attr, item, ret, raise. rewrite H.
  destruct (gl s2) as [g |]; [| reflexivity].
  repeat match goal with
         | |- context [match ?x with Some _ => _ | None => _ end] =>
             destruct x
         end; reflexivity.
Qed.

Lemma observation_run s w :
  observation s w = (outcome (observation s w), s, w).
Proof.
  destruct (observation_pure s w) as [Hs Hw].
  destruct (observation s w) as [[r s'] w']. cbn in *. now subst.
Qed.

Lemma reset_run s w :
  let s' :=
    set_season_length_nn (season_length_nn s + 4) (set_current_step 0 s) in
  reset s w
  = (match outcome (observation s w) with
     | inr obs => inr (obs, [])
     | inl e => inl e
     end, s', w).
Proof.
  intros s'. unfold reset, bind, assign.
  change (season_length_nn (set_current_step 0 s)) with (season_length_nn s).
  fold s'. rewrite (observation_run s' w).
  rewrite (observation_gl s' w s w) by reflexivity.
  now destruct (outcome (observation s w)).
Qed.

(** C6.  From a state in which [observation()] answers [obs], [reset()]
    returns the pair [(obs, {})], leaves the epoch counter at 0 and the
    dataset cursor 4 rows further, and [obs] is still the observation of
    the state it leaves. *)
Theorem reset_spec s w obs :
  outcome (observation s w) = inr obs ->
  exists s',
    reset s w = (inr (obs, []), s', w) /\
    current_step s' = 0 /\
    season_length_nn s' = season_length_nn s + 4 /\
    observation s' w = (inr obs, s', w).
Proof.
  intros H.
  exists (set_season_length_nn (season_length_nn s + 4)
            (set_current_step 0 s)).
  rewrite reset_run, H. repeat split.
  rewrite observation_run.
  now rewrite (observation_gl _ w s w), H by reflexivity.
Qed.

(** C9.  Whatever its outcome, [reset()] changes two attributes and
    nothing else: the epoch counter becomes 0 and the dataset cursor
    moves by 4.  The authoritative, predicted and actual buffers, the
    rewards and the three control lists are the ones it found, and the
    world is untouched. *)
Theorem reset_frame s w :
  state_of (reset s w)
  = set_season_length_nn (season_length_nn s + 4) (set_current_step 0 s)
  /\ world_of (reset s w) = w
  /\ gl (state_of (reset s w)) = gl s
  /\ nn (state_of (reset s w)) = nn s
  /\ excel (state_of (reset s w)) = excel s
  /\ rewards_list (state_of (reset s w)) = rewards_list s
  /\ ventilation_list (state_of (reset s w)) = ventilation_list s
  /\ toplights_list (state_of (reset s w)) = toplights_list s
  /\ heater_list (state_of (reset s w)) = heater_list s.
Proof. rewrite reset_run. repeat split. Qed.

(** ** The control sequencer *)

Lemma bind_ext_l {A B} (m1 m2 : M A) (k : A -> M B) s w :
  m1 s w = m2 s w -> bind m1 k s w = bind m2 k s w.
Proof. unfold bind. now intros ->. Qed.





(** ** Actions in dataset-driven mode *)

Lemma load_excel_data_dataset a1 a2 s w :
  flag_action_from_drl s = false ->
  load_excel_data a1 s w = load_excel_data a2 s w.
Proof.
  intros H. unfold load_excel_data, bind, self. now rewrite H.
Qed.

Lemma step_controls_dataset a1 a2 s w :
  flag_action_from_drl s = false ->
  step_controls a1 s w = step_controls a2 s w.
Proof. intros H. unfold step_controls, bind, self. now rewrite H. Qed.

Lemma predicted_nn_dataset a1 a2 s w :
  flag_action_from_drl s = false ->
  predicted_inside_measurements_nn a1 s w
  = predicted_inside_measurements_nn a2 s w.
Proof.
  intros H. unfold predicted_inside_measurements_nn.
  apply bind_ext_l. now apply load_excel_data_dataset.
Qed.

Lemma predicted_nn_keeps_flag a s w :
  wp (predicted_inside_measurements_nn a)
    (fun _ s' _ => flag_action_from_drl s' = flag_action_from_drl s) s w.
Proof. wp_start s w. wp_go; reflexivity. Qed.

Lemma bind_ext_wp {A B} (m : M A) (k1 k2 : A -> M B) s w :
  wp m (fun r s1 w1 =>
          match r with
          | inr a => k1 a s1 w1 = k2 a s1 w1
          | inl _ => True
          end) s w ->
  bind m k1 s w = bind m k2 s w.
Proof.
  unfold wp, bind. destruct (m s w) as [[[e | a] s1] w1]; cbn; auto.
Qed.

Lemma step_dataset a1 a2 s w :
  flag_action_from_drl s = false -> step a1 s w = step a2 s w.
Proof.
  intros H. unfold step. rewrite !bind_assign.
  set (s1 := set_current_step (current_step s + 1) s).
  assert (H1 : flag_action_from_drl s1 = false) by exact H.
  rewrite (bind_ext_l _ _ _ _ _ (predicted_nn_dataset a1 a2 s1 w H1)).
  apply bind_ext_wp.
  apply (wp_conseq _ _ _ _ _ (predicted_nn_keeps_flag a2 s1 w)).
  intros [e | []] s2 w2 H2; [trivial |].
  apply bind_ext_l. apply step_controls_dataset. congruence.
Qed.

(** C10.  With [flag_action_from_drl] false, [step] does not depend on
    its argument: for any two actions ([None] included) the two calls
    from the same state leave the same outcome (observation, reward,
    flags), the same object (every buffer and list) and the same world
    (exchange files and calls made); so do the loading of the dataset
    window and the building of the control vector on their own. *)
Theorem step_ignores_action_in_dataset_mode a1 a2 s w :
  flag_action_from_drl s = false ->
  step a1 s w = step a2 s w /\
  load_excel_data a1 s w = load_excel_data a2 s w /\
  step_controls a1 s w = step_controls a2 s w.
Proof.
  intros H. split; [| split].
  - now apply step_dataset.
  - now apply load_excel_data_dataset.
  - now apply step_controls_dataset.
Qed.

(** ** Actions that are out of range or too short *)






(** ** Export and clean-up *)

Definition export_events (file_name : string) : list Event :=
  [EvExport file_name; EvPlotAll "output/output_all_data.png";
   EvPlotRewards "output/output_rewards_action.png"].

Definition output_file (s : Self) : string :=
  if online_measurements s
  then "output/output_simulated_data_online.xlsx"
  else "output/output_simulated_data_offline.xlsx".

Lemma print_and_save_effect file_name s w :
  wp (print_and_save_all_data file_name)
    (fun r s' w' =>
       s' = s /\
       w' = match r with
            | inr _ =>
                Build_World (files w) (log w ++ export_events file_name)
            | inl _ => w
            end) s w.
Proof.
  wp_start s w. wp_go; split; try reflexivity.
  unfold export_events. now rewrite <- !app_assoc.
Qed.

Lemma delete_files_effect s w :
  wp delete_files
    (fun r s' w' =>
       s' = s /\ log w' = log w /\
       match r with
       | inr _ =>
           (forall f,
               f <> outdoor_mat \/ online_measurements s = true ->
               file_exists f (files w) = true /\
               file_exists f (files w') = false)
       | inl e => e = FileNotFoundError
       end) s w.
Proof.
  wp_start s w.
  wp_go; (split; [reflexivity | split; [reflexivity | try reflexivity]]).
  all: intros [] [Hf | Hf]; try congruence; try discriminate;
    split; cbn; try reflexivity; assumption.
Qed.

Lemma done_unfold_running s w :
  flag_run s = true ->
  max_steps s <= current_step s ->
  done s w
  = bind (print_and_save_all_data (output_file s))
      (fun _ => bind delete_files (fun _ => ret true)) s w.
Proof.
  intros Hrun H. unfold done. unfold bind at 1. unfold self. rewrite Hrun.
  replace (current_step s >=? max_steps s) with true
    by (symmetry; rewrite Z.geb_leb; apply Z.leb_le; lia).
  unfold output_file. now destruct (online_measurements s).
Qed.

Lemma done_exports s w :
  flag_run s = true ->
  max_steps s <= current_step s ->
  outcome (print_and_save_all_data (output_file s) s w) = inr tt ->
  log (world_of (done s w)) = log w ++ export_events (output_file s).
Proof.
  intros Hrun H Hsave. rewrite (done_unfold_running s w Hrun H).
  pose proof (print_and_save_effect (output_file s) s w) as P.
  unfold wp in P. unfold bind at 1.
  destruct (print_and_save_all_data (output_file s) s w) as [[r s1] w1].
  cbn in P, Hsave. subst r. destruct P as [-> ->].
  pose proof (delete_files_effect s
                (Build_World (files w)
                   (log w ++ export_events (output_file s)))) as D.
  unfold wp in D. unfold bind.
  destruct (delete_files s _) as [[[e | []] s2] w2];
    cbn in D |- *; now destruct D as (_ & -> & _).
Qed.

Lemma done_cleans s w s' w' :
  flag_run s = true ->
  max_steps s <= current_step s ->
  done s w = (inr true, s', w') ->
  forall f,
    f <> outdoor_mat \/ online_measurements s = true ->
    file_exists f (files w) = true /\ file_exists f (files w') = false.
Proof.
  intros Hrun H E. rewrite (done_unfold_running s w Hrun H) in E.
  apply bind_inr in E as ([] & s1 & w1 & Hsave & E).
  apply bind_inr in E as ([] & s2 & w2 & Hdel & E).
  injection E as <- <-.
  pose proof (wp_run _ _ _ _ _ _ _
                (print_and_save_effect (output_file s) s w) Hsave)
    as [-> ->].
  pose proof (wp_run _ _ _ _ _ _ _ (delete_files_effect s _) Hdel)
    as (_ & _ & D).
  exact D.
Qed.

Lemma done_quiet s w :
  current_step s < max_steps s \/ flag_run s = false ->
  world_of (done s w) = w.
Proof.
  intros [H | H].
  - now rewrite done_below.
  - destruct (Z_lt_le_dec (current_step s) (max_steps s)).
    + now rewrite done_below.
    + now rewrite done_training.
Qed.

(** C8, as the code has it.  [done()] keeps no record of having
    exported: in run mode, at every call made with the epoch counter at or
    beyond [max_steps], it hands the history to the exporter again
    (whenever the evaluation of the predictions goes through) and then
    removes the exchange files, answering [True] only if each of them was
    there to remove.  Below [max_steps], and in training mode, it touches
    neither the exporter nor the files. *)
Theorem done_exports_at_every_call :
  (forall s w,
      current_step s < max_steps s \/ flag_run s = false ->
      world_of (done s w) = w)
  /\ (forall s w,
        flag_run s = true ->
        max_steps s <= current_step s ->
        outcome (print_and_save_all_data (output_file s) s w) = inr tt ->
        log (world_of (done s w)) = log w ++ export_events (output_file s))
  /\ (forall s w s' w',
        flag_run s = true ->
        max_steps s <= current_step s ->
        done s w = (inr true, s', w') ->
        forall f,
          f <> outdoor_mat \/ online_measurements s = true ->
          file_exists f (files w) = true /\
          file_exists f (files w') = false).
Proof.
  split; [exact done_quiet |].
  split; [exact done_exports | exact done_cleans].
Qed.

(** ** Reachable states and the observation *)

(** The states of an environment that was constructed and then driven
    through its public methods, whatever the outcome of each call. *)
Inductive reachable : Self -> World -> Prop :=
| reach_init env_config w0 s w :
    __init__ env_config w0 = (inr tt, s, w) -> reachable s w
| reach_step a s w :
    reachable s w ->
    reachable (state_of (step a s w)) (world_of (step a s w))
| reach_reset s w :
    reachable s w ->
    reachable (state_of (reset s w)) (world_of (reset s w))
| reach_done s w :
    reachable s w ->
    reachable (state_of (done s w)) (world_of (done s w)).

(** The nine buffers read by [observation]. *)
Definition observed_buffers (g : GlData) : list (list float) :=
  [co2_in_predicted_gl g; temp_in_predicted_gl g; rh_in_predicted_gl g;
   PAR_in_predicted_gl g; fruit_leaf_predicted_gl g;
   fruit_stem_predicted_gl g; fruit_dw_predicted_gl g;
   fruit_cbuf_predicted_gl g; fruit_tcansum_predicted_gl g].

Definition observable (o : option GlData) : Prop :=
  exists g, o = Some g /\ Forall (fun l => l <> []) (observed_buffers g).

Lemma index_neg_none {A} (l : list A) : index_neg 1 l = None -> l = [].
Proof.
  destruct l as [| x l]; [trivial |]. intros H.
  destruct (index_neg_some (x :: l)) as [y Hy]; [discriminate | congruence].
Qed.

Lemma index_neg_nonempty {A} (l : list A) x :
  index_neg 1 l = Some x -> l <> [].
Proof. now intros H ->. Qed.

Lemma observation_observable s w obs :
  outcome (observation s w) = inr obs -> observable (gl s).
Proof.
  unfold observation, bind, attr, item, ret, raise, observable.
  destruct (gl s) as [g |]; [| discriminate].
  repeat match goal with
         | |- context [match index_neg 1 ?l with _ => _ end] =>
             let E := fresh "E" in
             destruct (index_neg 1 l) eqn:E;
             [apply index_neg_nonempty in E | discriminate]
         end.
  intros _. exists g. split; [reflexivity |].
  repeat constructor; assumption.
Qed.

Lemma observable_observation s w :
  observable (gl s) ->
  exists g co2 temp rh par leaf stem dw cbuf tcansum,
    gl s = Some g /\
    index_neg 1 (co2_in_predicted_gl g) = Some co2 /\
    index_neg 1 (temp_in_predicted_gl g) = Some temp /\
    index_neg 1 (rh_in_predicted_gl g) = Some rh /\
    index_neg 1 (PAR_in_predicted_gl g) = Some par /\
    index_neg 1 (fruit_leaf_predicted_gl g) = Some leaf /\
    index_neg 1 (fruit_stem_predicted_gl g) = Some stem /\
    index_neg 1 (fruit_dw_predicted_gl g) = Some dw /\
    index_neg 1 (fruit_cbuf_predicted_gl g) = Some cbuf /\
    index_neg 1 (fruit_tcansum_predicted_gl g) = Some tcansum /\
    observation s w
    = (inr [to_f32 co2; to_f32 temp; to_f32 rh; to_f32 par; to_f32 leaf;
            to_f32 stem; to_f32 dw; to_f32 cbuf; to_f32 tcansum], s, w).
Proof.
  intros (g & Hg & Hne). exists g.
  unfold observed_buffers in Hne.
  repeat match goal with
         | H : Forall _ (_ :: _) |- _ =>
             let x := fresh "x" in
             let Hx := fresh "Hx" in
             apply Forall_cons_iff in H as [Hx H];
             apply index_neg_some in Hx as [x Hx]
         end.
  do 9 eexists. split; [exact Hg |].
  repeat (split; [eassumption |]).
  unfold observation, bind, attr, item, ret. rewrite Hg.
  repeat match goal with
         | H : index_neg 1 _ = Some _ |- _ => rewrite H; clear H
         end.
  reflexivity.
Qed.

Lemma observable_concat g new :
  Forall (fun l => l <> []) (observed_buffers g) ->
  Forall (fun l => l <> []) (observed_buffers (gl_concat g new)).
Proof.
  unfold observed_buffers, gl_concat. cbn.
  intros H.
  repeat match goal with
         | H : Forall _ (_ :: _) |- _ =>
             let Hx := fresh "Hx" in
             apply Forall_cons_iff in H as [Hx H]
         end.
  repeat constructor;
    match goal with
    | |- ?a ++ _ <> [] => destruct a; [congruence | discriminate]
    end.
Qed.

Lemma observable_append g new :
  observable (Some g) ->
  observable (Some (appended gl_concat (Some g) new)).
Proof.
  intros (g' & [= <-] & H). exists (gl_concat g new).
  split; [reflexivity | now apply observable_concat].
Qed.

Lemma step_keeps_observable a s w :
  observable (gl s) -> wp (step a) (fun _ s' _ => observable (gl s')) s w.
Proof.
  intros H. destruct H as (g & Hg & H).
  assert (Ho : observable (Some g)) by (exists g; auto).
  clear H. wp_start s w.
  wp_go; first [exact Ho | now apply observable_append].
Qed.

Lemma init_observable env_config w0 s w :
  __init__ env_config w0 = (inr tt, s, w) -> observable (gl s).
Proof.
  unfold __init__.
  match goal with
  | |- ?m ?s0 w0 = _ -> _ =>
      assert (P : wp m (fun r s' _ =>
                          match r with
                          | inr _ => observable (gl s')
                          | inl _ => True
                          end) s0 w0)
  end.
  { unfold new_self. destruct w0 as [[? ? ? ? ?] ?].
    wp_go; trivial;
      match goal with
      | E : outcome (observation _ _) = inr _ |- _ =>
          apply observation_observable in E; exact E
      end. }
  intros E. exact (wp_run _ _ _ _ _ _ _ P E).
Qed.

Lemma reachable_observable s w : reachable s w -> observable (gl s).
Proof.
  induction 1 as [cfg w0 s w E | a s w _ IH | s w _ IH | s w _ IH].
  - exact (init_observable cfg w0 s w E).
  - exact (step_keeps_observable a s w IH).
  - now rewrite reset_run.
  - now rewrite done_self.
Qed.

(** C3, as the code has it.  In every reachable state [observation()]
    returns exactly 9 numbers, in the order CO2, temperature, humidity,
    PAR, leaf, stem, fruit dry weight, buffer, thermal-time sum, each the
    [np.float32] rounding of the most recent value of the corresponding
    authoritative buffer; it changes neither the object nor the world.
    (Nothing is checked for finiteness: a component is what the rounding
    makes of the simulator's last value.) *)
Theorem observation_spec s w :
  reachable s w ->
  exists g co2 temp rh par leaf stem dw cbuf tcansum,
    gl s = Some g /\
    index_neg 1 (co2_in_predicted_gl g) = Some co2 /\
    index_neg 1 (temp_in_predicted_gl g) = Some temp /\
    index_neg 1 (rh_in_predicted_gl g) = Some rh /\
    index_neg 1 (PAR_in_predicted_gl g) = Some par /\
    index_neg 1 (fruit_leaf_predicted_gl g) = Some leaf /\
    index_neg 1 (fruit_stem_predicted_gl g) = Some stem /\
    index_neg 1 (fruit_dw_predicted_gl g) = Some dw /\
    index_neg 1 (fruit_cbuf_predicted_gl g) = Some cbuf /\
    index_neg 1 (fruit_tcansum_predicted_gl g) = Some tcansum /\
    observation s w
    = (inr [to_f32 co2; to_f32 temp; to_f32 rh; to_f32 par; to_f32 leaf;
            to_f32 stem; to_f32 dw; to_f32 cbuf; to_f32 tcansum], s, w).
Proof.
  intros H. apply observable_observation.
  exact (reachable_observable s w H).
Qed.

(** ** The lengths of the history buffers *)

Definition gl_sizes (d : GlData) : list nat :=
  [length (time_gl d); length (co2_in_predicted_gl d);
   length (temp_in_predicted_gl d); length (rh_in_predicted_gl d);
   length (PAR_in_predicted_gl d); length (fruit_leaf_predicted_gl d);
   length (fruit_stem_predicted_gl d); length (fruit_dw_predicted_gl d);
   length (fruit_cbuf_predicted_gl d);
   length (fruit_tcansum_predicted_gl d)].

Definition nn_sizes (d : NnData) : list nat :=
  [length (par_in_predicted_nn d); length (temp_in_predicted_nn d);
   length (rh_in_predicted_nn d); length (co2_in_predicted_nn d)].

Definition excel_sizes (d : ExcelData) : list nat :=
  [length (time_excel d); length (global_out_excel d);
   length (global_in_excel d); length (temp_in_excel d);
   length (temp_out_excel d); length (rh_in_excel d);
   length (rh_out_excel d); length (co2_in_excel d);
   length (co2_out_excel d); length (toplights d); length (ventilation d);
   length (heater d)].

(** The buffers of one source exist and all have length [n]. *)
Definition sized {A} (sizes : A -> list nat) (n : nat) (o : option A)
    : Prop :=
  exists d, o = Some d /\ Forall (eq n) (sizes d).

(** Every history buffer of the three sources, and the list of rewards,
    has length [n]. *)
Definition history_sized (n : nat) (s : Self) : Prop :=
  length (rewards_list s) = n /\
  sized gl_sizes n (gl s) /\
  sized nn_sizes n (nn s) /\
  sized excel_sizes n (excel s).

(** What the theorem on lengths asks of the collaborators: the MATLAB
    script is installed, a simulation returns at least 4 samples of each
    quantity, and the predictor returns one value per row. *)
Definition well_behaved : Prop :=
  matlab_script_isfile = true /\
  (forall sl fd cf o i f fs d,
      DrlGlEnvironment sl fd cf o i f fs = inr d ->
      Forall (fun k => 4 <= k)%nat (gl_sizes d)) /\
  (forall target rows l,
      model_predict target rows = inr l -> length l = length rows).

Inductive Call :=
| call_step (a : Action)
| call_reset.

(** A sequence of calls, each of which returns. *)
Fixpoint run_calls (calls : list Call) : M unit :=
  match calls with
  | [] => ret tt
  | call_step a :: calls => _ <- step a ;; run_calls calls
  | call_reset :: calls => _ <- reset ;; run_calls calls
  end.

Fixpoint count_steps (calls : list Call) : nat :=
  match calls with
  | [] => 0
  | call_step _ :: calls => S (count_steps calls)
  | call_reset :: calls => count_steps calls
  end.

Lemma last_n_length {A} (k : nat) (l : list A) :
  (k <= length l)%nat -> length (last_n k l) = k.
Proof. intros H. unfold last_n. rewrite length_skipn. lia. Qed.

Lemma window_length {A} (c : Z) (l : list A) :
  0 <= c ->
  c + 4 <= Z.of_nat (length l) ->
  length (py_slice c (c + 4) l) = 4%nat.
Proof.
  intros H0 H4. unfold py_slice, slice_bound.
  replace (c <? 0) with false by (symmetry; apply Z.ltb_ge; lia).
  replace (c + 4 <? 0) with false by (symmetry; apply Z.ltb_ge; lia).
  rewrite length_firstn, length_skipn. lia.
Qed.

Lemma gl_sized_append n m g new :
  sized gl_sizes n (Some g) ->
  Forall (eq m) (gl_sizes new) ->
  sized gl_sizes (n + m) (Some (gl_concat g new)).
Proof.
  intros (g' & [= <-] & H) Hnew. exists (gl_concat g new).
  split; [reflexivity |].
  unfold gl_sizes, gl_concat in *. cbn.
  repeat match goal with
         | H : Forall _ (_ :: _) |- _ =>
             let Hx := fresh "Hx" in
             apply Forall_cons_iff in H as [Hx H]
         end.
  rewrite !length_app. repeat constructor; congruence.
Qed.

Lemma nn_sized_append n m g new :
  sized nn_sizes n (Some g) ->
  Forall (eq m) (nn_sizes new) ->
  sized nn_sizes (n + m) (Some (nn_concat g new)).
Proof.
  intros (g' & [= <-] & H) Hnew. exists (nn_concat g new).
  split; [reflexivity |].
  unfold nn_sizes, nn_concat in *. cbn.
  repeat match goal with
         | H : Forall _ (_ :: _) |- _ =>
             let Hx := fresh "Hx" in
             apply Forall_cons_iff in H as [Hx H]
         end.
  rewrite !length_app. repeat constructor; congruence.
Qed.

Lemma excel_sized_append n m g new :
  sized excel_sizes n (Some g) ->
  Forall (eq m) (excel_sizes new) ->
  sized excel_sizes (n + m) (Some (excel_concat g new)).
Proof.
  intros (g' & [= <-] & H) Hnew. exists (excel_concat g new).
  split; [reflexivity |].
  unfold excel_sizes, excel_concat in *. cbn.
  repeat match goal with
         | H : Forall _ (_ :: _) |- _ =>
             let Hx := fresh "Hx" in
             apply Forall_cons_iff in H as [Hx H]
         end.
  rewrite !length_app. repeat constructor; congruence.
Qed.

Lemma excel_of_rows_sizes rows n :
  length rows = n -> Forall (eq n) (excel_sizes (excel_of_rows rows)).
Proof.
  intros <-. unfold excel_sizes, excel_of_rows. cbn. rewrite !length_map.
  repeat constructor.
Qed.

Lemma gl_window_sizes d :
  Forall (fun k => 4 <= k)%nat (gl_sizes d) ->
  Forall (eq 4%nat) (gl_sizes (gl_map (last_n 4) d)).
Proof.
  unfold gl_sizes, gl_map. cbn. intros H.
  repeat match goal with
         | H : Forall _ (_ :: _) |- _ =>
             let Hx := fresh "Hx" in
             apply Forall_cons_iff in H as [Hx H]
         end.
  repeat constructor; symmetry; now apply last_n_length.
Qed.

Lemma step_cursor a s w :
  wp (step a)
    (fun r s' _ =>
       mgh_data s' = mgh_data s /\
       match r with
       | inr _ => season_length_nn s' = season_length_nn s + 4
       | inl _ => True
       end) s w.
Proof. wp_start s w. wp_go; split; trivial. Qed.

(** The leaves of an execution that appended one batch to every
    buffer. *)
Ltac batch_sizes Hgl Hnn :=
  repeat match goal with
         | H : model_predict _ _ = inr _ |- _ => apply Hnn in H
         | H : DrlGlEnvironment _ _ _ _ _ _ _ = inr _ |- _ => apply Hgl in H
         end;
  match goal with
  | |- context [excel_of_rows ?rows] =>
      assert (length rows = 4%nat)
        by (repeat first [ rewrite length_map
                         | rewrite length_combine
                         | rewrite repeat_length
                         | rewrite window_length by assumption ];
            reflexivity)
  end.

Lemma step_history a n s w :
  well_behaved ->
  history_sized n s ->
  0 <= season_length_nn s ->
  season_length_nn s + 4 <= Z.of_nat (length (mgh_data s)) ->
  wp (step a)
    (fun r s' _ =>
       match r with
       | inr _ => history_sized (n + 4) s'
       | inl _ => True
       end) s w.
Proof.
  intros (_ & Hgl & Hnn) (Hr & (g & Hg & HG) & (d & Hd & HD) & (e & He & HE)).
  intros H0 H4.
  wp_start s w.
  wp_go; trivial.
  all: batch_sizes Hgl Hnn.
  all: unfold history_sized; simp_state; cbn [appended].
  all: split; [rewrite length_app, repeat_length; reflexivity |].
  all: split; [apply gl_sized_append;
               [exists g; auto | now apply gl_window_sizes] |].
  all: split; [apply nn_sized_append; [exists d; auto |] |
               apply excel_sized_append; [exists e; auto |]].
  all: try (unfold nn_sizes; cbn; repeat constructor; congruence).
  all: now apply excel_of_rows_sizes.
Qed.

Lemma init_history env_config w0 s w :
  well_behaved ->
  0 <= config_get (cfg_season_length_nn env_config) 0 ->
  __init__ env_config w0 = (inr tt, s, w) ->
  season_length_nn s = config_get (cfg_season_length_nn env_config) 0 + 4
  /\ mgh_data s = read_excel
  /\ (season_length_nn s <= Z.of_nat (length read_excel) ->
      history_sized 4 s).
Proof.
  intros (Hscript & Hgl & Hnn) H0. unfold __init__.
  match goal with
  | |- ?m ?s0 w0 = _ -> _ =>
      assert (P : wp m (fun r s' _ =>
                          match r with
                          | inr _ =>
                              season_length_nn s'
                              = config_get
                                  (cfg_season_length_nn env_config) 0 + 4
                              /\ mgh_data s' = read_excel
                              /\ (season_length_nn s'
                                  <= Z.of_nat (length read_excel) ->
                                  history_sized 4 s')
                          | inl _ => True
                          end) s0 w0)
  end.
  { unfold new_self. destruct w0 as [[? ? ? ? ?] ?].
    set (c := config_get (cfg_season_length_nn env_config) 0) in *.
    wp_go; trivial; try congruence.
    all: split; [reflexivity | split; [reflexivity | intros H4]].
    all: batch_sizes Hgl Hnn.
    all: unfold history_sized; simp_state; cbn [appended].
    all: split; [reflexivity |].
    all: split; [eexists; split;
                 [reflexivity | now apply gl_window_sizes] |].
    all: split; eexists; (split; [reflexivity |]).
    all: try (unfold nn_sizes; cbn; repeat constructor; congruence).
    all: now apply excel_of_rows_sizes. }
  intros E. exact (wp_run _ _ _ _ _ _ _ P E).
Qed.

Lemma history_sized_reset n s :
  history_sized n s ->
  history_sized n
    (set_season_length_nn (season_length_nn s + 4) (set_current_step 0 s)).
Proof. trivial. Qed.

Lemma run_calls_cursor calls :
  forall s w s' w',
    run_calls calls s w = (inr tt, s', w') ->
    season_length_nn s'
    = season_length_nn s + 4 * Z.of_nat (length calls)
    /\ mgh_data s' = mgh_data s.
Proof.
  induction calls as [| [a |] calls IH]; intros s w s' w' E.
  - cbn in E. injection E as <- <-. cbn [length]. split; [lia | reflexivity].
  - cbn [run_calls] in E. apply bind_inr in E as (r & s1 & w1 & E1 & E).
    destruct (wp_run _ _ _ _ _ _ _ (step_cursor a s w) E1) as [Hm Hc].
    destruct (IH _ _ _ _ E) as [Hc' Hm'].
    cbn [length]. split; [lia | congruence].
  - cbn [run_calls] in E. apply bind_inr in E as (r & s1 & w1 & E1 & E).
    rewrite reset_run in E1. injection E1 as _ <- <-.
    destruct (IH _ _ _ _ E) as [Hc' Hm'].
    cbn [season_length_nn mgh_data set_season_length_nn set_current_step]
      in Hc', Hm'.
    cbn [length]. split; [lia | congruence].
Qed.

Lemma run_calls_history calls :
  forall n s w s' w',
    well_behaved ->
    history_sized n s ->
    0 <= season_length_nn s ->
    run_calls calls s w = (inr tt, s', w') ->
    season_length_nn s' <= Z.of_nat (length (mgh_data s)) ->
    history_sized (n + 4 * count_steps calls) s'.
Proof.
  induction calls as [| [a |] calls IH]; intros n s w s' w' Hwb Hn H0 E Hlen.
  - cbn in E. injection E as <- <-. cbn. now rewrite Nat.add_0_r.
  - cbn [run_calls] in E. apply bind_inr in E as (r & s1 & w1 & E1 & E).
    destruct (wp_run _ _ _ _ _ _ _ (step_cursor a s w) E1) as [Hm Hc].
    destruct (run_calls_cursor _ _ _ _ _ E) as [Hc' _].
    assert (Hs1 : history_sized (n + 4) s1).
    { refine (wp_run _ _ _ _ _ _ _ (step_history a n s w Hwb Hn H0 _) E1).
      lia. }
    cbn [count_steps].
    replace (n + 4 * S (count_steps calls))%nat
      with (n + 4 + 4 * count_steps calls)%nat by lia.
    apply (IH _ s1 w1 s' w'); trivial; [lia | congruence].
  - cbn [run_calls] in E. apply bind_inr in E as (r & s1 & w1 & E1 & E).
    rewrite reset_run in E1. injection E1 as _ <- <-.
    cbn [count_steps].
    apply (IH n _ w s' w' Hwb (history_sized_reset n s Hn)); trivial.
    cbn [season_length_nn set_season_length_nn set_current_step]. lia.
Qed.

(** C4, as the code has it.  The constructor itself records one batch
    of 4 in every buffer (and 4 rewards of [0]) before any [step].  With
    collaborators that behave, and as long as the dataset has rows left
    at the cursor, after the construction and any sequence of [step] and
    [reset] calls that all return, [n] of them being [step] calls, every
    history buffer of each source (authoritative, predicted, actual) and
    the list of rewards have length [4 * (n + 1)]: 20 after 4 steps. *)
Theorem history_lengths env_config w0 s0 w1 calls s w :
  well_behaved ->
  0 <= config_get (cfg_season_length_nn env_config) 0 ->
  __init__ env_config w0 = (inr tt, s0, w1) ->
  run_calls calls s0 w1 = (inr tt, s, w) ->
  season_length_nn s <= Z.of_nat (length read_excel) ->
  history_sized (4 * (count_steps calls + 1)) s.
Proof.
  intros Hwb H0 Ei Er Hlen.
  destruct (init_history env_config w0 s0 w1 Hwb H0 Ei) as (Hc & Hm & Hh).
  destruct (run_calls_cursor _ _ _ _ _ Er) as [Hc' _].
  replace (4 * (count_steps calls + 1))%nat
    with (4 + 4 * count_steps calls)%nat by lia.
  apply (run_calls_history calls 4%nat s0 w1 s w); trivial.
  - apply Hh. lia.
  - lia.
  - now rewrite Hm.
Qed.


(** * Further properties of the controller *)

(** ** Windows of the dataset *)

Lemma firstn_then {A} (n m : nat) (l : list A) :
  firstn n l ++ firstn m (skipn n l) = firstn (n + m) l.
Proof.
  revert l. induction n as [| n IH]; intros [| x l]; cbn;
    rewrite ?firstn_nil; trivial.
  now rewrite IH.
Qed.


Lemma py_slice_adjacent {A} (a b c : Z) (l : list A) :
  0 <= a -> a <= b -> b <= c ->
  py_slice a b l ++ py_slice b c l = py_slice a c l.
Proof.
  intros Ha Hab Hbc. unfold py_slice, slice_bound.
  replace (a <? 0) with false by (symmetry; apply Z.ltb_ge; lia).
  replace (b <? 0) with false by (symmetry; apply Z.ltb_ge; lia).
  replace (c <? 0) with false by (symmetry; apply Z.ltb_ge; lia).
  set (len := Z.of_nat (length l)).
  replace (skipn (Z.to_nat (Z.min b len)) l)
    with (skipn (Z.to_nat (Z.min b len - Z.min a len))
            (skipn (Z.to_nat (Z.min a len)) l))
    by (rewrite skipn_skipn; f_equal; lia).
  rewrite firstn_then. f_equal. lia.
Qed.


Lemma last_n_app {A} (k : nat) (x y : list A) :
  length y = k -> last_n k (x ++ y) = y.
Proof.
  intros <-. unfold last_n. rewrite length_app.
  replace (length x + length y - length y)%nat with (length x) by lia.
  rewrite skipn_app, skipn_all, Nat.sub_diag. reflexivity.
Qed.


Lemma excel_concat_nil e : excel_concat e (excel_of_rows []) = e.
Proof.
  destruct e. unfold excel_concat, excel_of_rows. cbn.
  now rewrite !app_nil_r.
Qed.

Lemma excel_of_rows_app a b :
  excel_concat (excel_of_rows a) (excel_of_rows b) = excel_of_rows (a ++ b).
Proof.
  unfold excel_concat, excel_of_rows. cbn. now rewrite !map_app.
Qed.

Lemma excel_concat_assoc a b c :
  excel_concat (excel_concat a b) c = excel_concat a (excel_concat b c).
Proof.
  unfold excel_concat. cbn. now rewrite <- !app_assoc.
Qed.

(** ** Loading a window *)

(** The window at the cursor. *)
Definition window (s : Self) : list Row :=
  py_slice (season_length_nn s) (season_length_nn s + 4) (mgh_data s).

Lemma load_excel_data_recorded a s w :
  flag_action_from_drl s && present a = false ->
  load_excel_data a s w
  = (inr tt,
     set_excel
       (Some (appended excel_concat (excel s) (excel_of_rows (window s))))
       (set_step_data (Some (window s)) s),
     w).
Proof.
  intros H. unfold load_excel_data, bind, self, assign. rewrite H.
  cbn [ret attr step_data set_step_data excel].
  unfold window. now destruct (excel s).
Qed.



Lemma last_n_all {A} (k : nat) (l : list A) : length l = k -> last_n k l = l.
Proof. intros H. now apply (last_n_app k [] l). Qed.

Lemma appended_controls o rows :
  length rows = 4%nat ->
  last_n 4 (ventilation (appended excel_concat o (excel_of_rows rows)))
  = map r_ventilation rows
  /\ last_n 4 (toplights (appended excel_concat o (excel_of_rows rows)))
     = map r_toplights rows
  /\ last_n 4 (heater (appended excel_concat o (excel_of_rows rows)))
     = map r_heater rows.
Proof.
  intros H. destruct o as [e |]; cbn [appended];
    unfold excel_concat, excel_of_rows; cbn [ventilation toplights heater].
  - rewrite !last_n_app by now rewrite length_map. auto.
  - rewrite !last_n_all by now rewrite length_map. auto.
Qed.

(** X5.  In dataset-driven mode, when 4 rows are left at the cursor, the
    control vector that [step] builds after loading the window is made of
    the window's own three control columns, with the fixed time stamps:
    the last 4 entries of the accumulated control buffers are the 4 rows
    just read. *)
Theorem dataset_controls_are_the_window a s w :
  flag_action_from_drl s = false ->
  0 <= season_length_nn s ->
  season_length_nn s + 4 <= Z.of_nat (length (mgh_data s)) ->
  exists s',
    load_excel_data a s w = (inr tt, s', w) /\
    step_data s' = Some (window s) /\
    step_controls a s' w
    = (inr (Build_Controls [300; 600; 900; 1200]%float
              (map r_ventilation (window s)) (map r_toplights (window s))
              (map r_heater (window s))),
       s', w).
Proof.
  intros Hflag H0 H4.
  rewrite load_excel_data_recorded by now rewrite Hflag.
  eexists. split; [reflexivity |]. split; [reflexivity |].
  assert (Hlen : length (window s) = 4%nat) by now apply window_length.
  match goal with
  | |- step_controls a ?st w = _ => set (s' := st)
  end.
  assert (Hf' : flag_action_from_drl s' = false) by exact Hflag.
  assert (He' : excel s'
                = Some (appended excel_concat (excel s)
                          (excel_of_rows (window s)))) by reflexivity.
  unfold step_controls, bind, self, attr. rewrite Hf', He', time_steps_eq.
  destruct (appended_controls (excel s) (window s) Hlen) as (-> & -> & ->).
  reflexivity.
Qed.

(** ** The observation and the reward on short buffers *)

Lemma observation_error_kinds s w :
  wp observation
    (fun r _ _ =>
       match r with
       | inl e => e = AttributeError \/ e = IndexError
       | inr obs => length obs = 9%nat
       end) s w.
Proof. wp_exec; auto. Qed.

(** X1.  [observation()] returns exactly when the nine observed
    authoritative buffers exist and none of them is empty (the buffer of
    time stamps plays no part).  Before the buffers exist it raises
    [AttributeError], on an empty buffer [IndexError], and nothing else;
    what it returns always has 9 components. *)
Theorem observation_succeeds_iff s w :
  ((exists obs, outcome (observation s w) = inr obs) <-> observable (gl s))
  /\ (gl s = None -> observation s w = (inl AttributeError, s, w))
  /\ (forall e,
        outcome (observation s w) = inl e ->
        e = AttributeError \/ e = IndexError)
  /\ (forall obs,
        outcome (observation s w) = inr obs -> length obs = 9%nat).
Proof.
  split; [split |].
  - intros [obs H]. exact (observation_observable s w obs H).
  - intros H.
    destruct (observable_observation s w H)
      as (g & x1 & x2 & x3 & x4 & x5 & x6 & x7 & x8 & x9 & _ & _ & _ & _
          & _ & _ & _ & _ & _ & _ & E).
    eexists. rewrite E. reflexivity.
  - split; [| split].
    + intros H. unfold observation, bind, attr. now rewrite H.
    + intros e H. pose proof (observation_error_kinds s w) as P.
      unfold wp in P. now rewrite H in P.
    + intros obs H. pose proof (observation_error_kinds s w) as P.
      unfold wp in P. now rewrite H in P.
Qed.

(** X2.  After epoch 0 the reward needs two samples of fruit dry weight:
    with the authoritative buffers missing [get_reward] raises
    [AttributeError], with fewer than two samples (one included)
    [IndexError]; in both cases the object and the world are left as they
    were. *)
Theorem get_reward_needs_two_samples s w v t h :
  current_step s <> 0 ->
  (gl s = None -> get_reward v t h s w = (inl AttributeError, s, w)) /\
  (forall g,
      gl s = Some g ->
      (length (fruit_dw_predicted_gl g) < 2)%nat ->
      get_reward v t h s w = (inl IndexError, s, w)).
Proof.
  intros Hk.
  assert (E : (current_step s =? 0) = false) by now apply Z.eqb_neq.
  split.
  - intros Hg. unfold get_reward, bind, self, attr. now rewrite E, Hg.
  - intros g Hg Hlen. unfold get_reward, bind, self, attr.
    rewrite E, Hg.
    destruct (fruit_dw_predicted_gl g) as [| x [| y l]]; cbn in Hlen;
      try lia; reflexivity.
Qed.

(** ** Reading the simulator's output *)




(** ** Removing the exchange files *)

Ltac need_file H f :=
  try (let N := fresh "N" in
       assert (N := H f ltac:(first [left; discriminate | right; reflexivity]));
       cbn in N).

Lemma delete_files_outcome s w :
  wp delete_files
    (fun r _ w' =>
       (r = inr tt <->
        forall f,
          f <> outdoor_mat \/ online_measurements s = true ->
          file_exists f (files w) = true)
       /\ (forall e, r = inl e -> e = FileNotFoundError)
       /\ (file_exists controls_mat (files w) = true ->
           file_exists controls_mat (files w') = false)
       /\ log w' = log w) s w.
Proof.
  wp_start s w. wp_go.
  all: split; [split | split; [| split; [| reflexivity]]].
  all: try (intros e [= <-]; reflexivity).
  all: try discriminate.
  all: try reflexivity.
  all: try (cbn; congruence).
  all: try (intros _ [] [Hf | Hf]; try congruence; try discriminate;
            cbn; assumption).
  all: intros H; exfalso;
    need_file H controls_mat; need_file H drl_env_mat;
    need_file H indoor_mat; need_file H fruit_mat; need_file H outdoor_mat;
    congruence.
Qed.

(** X8.  [delete_files] returns exactly when every file it removes is
    there: [controls.mat], [drl-env.mat], [indoor.mat] and [fruit.mat],
    and [outdoor.mat] in live mode only.  Otherwise it raises
    [FileNotFoundError] and nothing else; the removal is not atomic, since
    [controls.mat], when present, is gone whatever the outcome.  It makes no
    call to a collaborator. *)
Theorem delete_files_spec s w :
  (outcome (delete_files s w) = inr tt <->
   forall f,
     f <> outdoor_mat \/ online_measurements s = true ->
     file_exists f (files w) = true)
  /\ (forall e, outcome (delete_files s w) = inl e -> e = FileNotFoundError)
  /\ (file_exists controls_mat (files w) = true ->
      file_exists controls_mat (files (world_of (delete_files s w))) = false)
  /\ log (world_of (delete_files s w)) = log w.
Proof. exact (delete_files_outcome s w). Qed.

Lemma delete_files_without_controls s w :
  file_exists controls_mat (files w) = false ->
  delete_files s w = (inl FileNotFoundError, s, w).
Proof.
  intros H. unfold delete_files. unfold bind at 1. unfold os_remove.
  now rewrite H.
Qed.

(** ** Exporting *)

Lemma print_and_save_outcome_world file_name s w1 w2 :
  outcome (print_and_save_all_data file_name s w1)
  = outcome (print_and_save_all_data file_name s w2).
Proof.
  destruct (excel s) as [e |] eqn:He; destruct (nn s) as [n |] eqn:Hn;
    destruct (gl s) as [g |] eqn:Hg;
    unfold print_and_save_all_data, evaluate_predictions;
    unfold bind, attr, external, ret, raise, record;
    repeat (cbv beta iota;
            first [ rewrite He | rewrite Hn | rewrite Hg
                  | match goal with
                    | |- context [match calculate_metrics ?a ?b with
                                  | inl _ => _
                                  | inr _ => _
                                  end] =>
                        destruct (calculate_metrics a b) as [? | [? ?]]
                    end ]);
    reflexivity.
Qed.


(** X9.  [done()] cannot be called twice at the end of an episode: after
    a call in run mode that answered [True], an immediate second call hands
    the history to the exporter once more and then raises
    [FileNotFoundError], because the exchange files are gone; it leaves the
    files as they are. *)
Theorem done_is_not_reentrant s w s' w' :
  flag_run s = true ->
  max_steps s <= current_step s ->
  done s w = (inr true, s', w') ->
  s' = s
  /\ outcome (done s' w') = inl FileNotFoundError
  /\ log (world_of (done s' w')) = log w' ++ export_events (output_file s)
  /\ files (world_of (done s' w')) = files w'.
Proof.
  intros Hrun H E.
  pose proof (done_self s w) as Hs. rewrite E in Hs. cbn in Hs. subst s'.
  assert (Hgone : file_exists controls_mat (files w') = false).
  { refine (proj2 (done_cleans s w s w' Hrun H E controls_mat _)).
    left. discriminate. }
  rewrite (done_unfold_running s w Hrun H) in E.
  apply bind_inr in E as ([] & s1 & w1 & Hsave & _).
  assert (Hout : outcome (print_and_save_all_data (output_file s) s w')
                 = inr tt).
  { rewrite (print_and_save_outcome_world _ s w' w), Hsave. reflexivity. }
  pose proof (print_and_save_effect (output_file s) s w') as P.
  unfold wp in P. rewrite Hout in P. destruct P as [Ps Pw].
  set (w2 := Build_World (files w') (log w' ++ export_events (output_file s)))
    in *.
  assert (Hsave2 : print_and_save_all_data (output_file s) s w'
                   = (inr tt, s, w2)).
  { destruct (print_and_save_all_data (output_file s) s w') as [[r s3] w3].
    cbn in Hout, Ps, Pw. now subst. }
  split; [reflexivity |].
  rewrite (done_unfold_running s w' Hrun H).
  rewrite (bind_eq _ _ _ _ _ _ _ Hsave2).
  rewrite (bind_raise _ _ _ _ _ _ _
             (delete_files_without_controls s w2 Hgone)).
  repeat split.
Qed.

(** ** Failures of the predictor *)

(** X6.  When the predictor raises on the first target of an epoch,
    [step] raises the same exception at once: the object is the one
    [load_excel_data] left (epoch counter incremented, window loaded, actual
    buffers extended), no exchange file has been written and the only call
    made to a collaborator is that prediction. *)
Theorem step_predictor_failure a s w s2 rows e :
  load_excel_data a (set_current_step (current_step s + 1) s) w
  = (inr tt, s2, w) ->
  step_data s2 = Some rows ->
  model_predict "global in" rows = inl e ->
  step a s w
  = (inl e, s2,
     Build_World (files w) (log w ++ [EvPredict "global in" rows])).
Proof.
  intros Hload Hrows Hpred. unfold step. rewrite bind_assign.
  apply bind_raise. unfold predicted_inside_measurements_nn.
  rewrite (bind_eq _ _ _ _ _ _ _ Hload).
  unfold bind at 1. unfold attr. rewrite Hrows.
  apply bind_raise. unfold predict_inside_measurements, bind, record, external.
  now rewrite Hpred.
Qed.

(** ** The constructor *)



Lemma init_facts env_config w0 :
  wp (fun _ w => __init__ env_config w)
    (fun r s _ =>
       match r with
       | inr _ =>
           current_step s = 0
           /\ rewards_list s = repeat 0%float 4
           /\ (let zeros :=
                 if matlab_script_isfile then repeat 0%float 4 else [] in
               ventilation_list s = zeros /\ toplights_list s = zeros /\
               heater_list s = zeros)
           /\ flag_run s = config_get (cfg_flag_run env_config) true
           /\ online_measurements s
              = config_get (cfg_online_measurements env_config) false
           /\ flag_action_from_drl s
              = config_get (cfg_flag_action_from_drl env_config) false
           /\ max_steps s = config_get (cfg_max_steps env_config) 4
           /\ season_length_nn s
              = config_get (cfg_season_length_nn env_config) 0 + 4
       | inl _ => True
       end) (new_self env_config) w0.
Proof.
  unfold wp, __init__.
  match goal with
  | |- context [outcome (?m ?s0 w0)] =>
      change (wp m (fun r s _ =>
                      match r with
                      | inr _ =>
                          current_step s = 0
                          /\ rewards_list s = repeat 0%float 4
                          /\ (let zeros :=
                                if matlab_script_isfile
                                then repeat 0%float 4 else [] in
                              ventilation_list s = zeros /\
                              toplights_list s = zeros /\
                              heater_list s = zeros)
                          /\ flag_run s
                             = config_get (cfg_flag_run env_config) true
                          /\ online_measurements s
                             = config_get (cfg_online_measurements env_config)
                                 false
                          /\ flag_action_from_drl s
                             = config_get
                                 (cfg_flag_action_from_drl env_config) false
                          /\ max_steps s
                             = config_get (cfg_max_steps env_config) 4
                          /\ season_length_nn s
                             = config_get (cfg_season_length_nn env_config) 0
                               + 4
                      | inl _ => True
                      end) s0 w0)
  end.
  unfold new_self. destruct w0 as [[? ? ? ? ?] ?].
  set (c := config_get (cfg_season_length_nn env_config) 0).
  wp_go; trivial; repeat split; congruence.
Qed.

(** X12.  A constructed environment starts at epoch 0 with four rewards
    of [0], the cursor 4 rows after the configured start, the flags and
    [max_steps] of [env_config] (defaults: run mode, offline, dataset-driven,
    4 epochs), and each control list holding four zeros when the MATLAB
    script is installed and nothing otherwise. *)
Theorem init_fresh env_config w0 s w :
  __init__ env_config w0 = (inr tt, s, w) ->
  current_step s = 0
  /\ rewards_list s = repeat 0%float 4
  /\ (let zeros := if matlab_script_isfile then repeat 0%float 4 else [] in
      ventilation_list s = zeros /\ toplights_list s = zeros /\
      heater_list s = zeros)
  /\ flag_run s = config_get (cfg_flag_run env_config) true
  /\ online_measurements s
     = config_get (cfg_online_measurements env_config) false
  /\ flag_action_from_drl s
     = config_get (cfg_flag_action_from_drl env_config) false
  /\ max_steps s = config_get (cfg_max_steps env_config) 4
  /\ season_length_nn s
     = config_get (cfg_season_length_nn env_config) 0 + 4.
Proof.
  intros E. pose proof (init_facts env_config w0) as P.
  unfold wp in P. rewrite E in P. exact P.
Qed.


(** ** What a step keeps and what it only appends to *)

(** A buffer created on first use is either left alone or has one batch
    appended. *)
Definition grows {A} (cat : A -> A -> A) (o o' : option A) : Prop :=
  o' = o \/ exists new, o' = Some (appended cat o new).

Ltac appended_list :=
  first [ exists []; now rewrite app_nil_r | eexists; reflexivity ].

Ltac grown :=
  first [ left; reflexivity | right; eexists; reflexivity ].

Lemma step_frame a s w :
  wp (step a)
    (fun _ s' _ =>
       (flag_run s' = flag_run s
        /\ online_measurements s' = online_measurements s
        /\ flag_action_from_drl s' = flag_action_from_drl s
        /\ max_steps s' = max_steps s
        /\ mgh_data s' = mgh_data s)
       /\ (rewards_list s' = rewards_list s
           \/ exists r, rewards_list s' = rewards_list s ++ repeat r 4)
       /\ ((exists x, ventilation_list s' = ventilation_list s ++ x)
           /\ (exists x, toplights_list s' = toplights_list s ++ x)
           /\ (exists x, heater_list s' = heater_list s ++ x))
       /\ (grows gl_concat (gl s) (gl s')
           /\ grows nn_concat (nn s) (nn s')
           /\ grows excel_concat (excel s) (excel s'))) s w.
Proof.
  wp_start s w. wp_go.
  all: split; [repeat split |].
  all: split; [first [left; reflexivity | right; eexists; reflexivity] |].
  all: split; [repeat split; appended_list |].
  all: repeat split; grown.
Qed.


(** ** The list of rewards *)

(** Four zeros, then one batch of four equal rewards per reward computed. *)
Definition broadcast (rewards : list float) : list float :=
  repeat 0%float 4 ++ flat_map (fun r => repeat r 4) rewards.

Lemma reachable_rewards s w :
  reachable s w -> exists rewards, rewards_list s = broadcast rewards.
Proof.
  induction 1 as [cfg w0 s w E | a s w _ IH | s w _ IH | s w _ IH].
  - exists []. pose proof (init_facts cfg w0) as P.
    unfold wp in P. rewrite E in P. cbn in P.
    destruct P as (_ & -> & _). unfold broadcast. cbn.
    reflexivity.
  - destruct IH as [rs IH].
    destruct (proj1 (proj2 (step_frame a s w))) as [E | [r E]];
      unfold wp in E.
    + exists rs. now rewrite E.
    + exists (rs ++ [r]). rewrite E, IH. unfold broadcast.
      rewrite flat_map_app. cbn [flat_map].
      now rewrite app_nil_r, app_assoc.
  - rewrite reset_run. exact IH.
  - rewrite done_self. exact IH.
Qed.

Lemma batches_length (rewards : list float) :
  length (flat_map (fun r => repeat r 4) rewards) = (4 * length rewards)%nat.
Proof.
  induction rewards as [| r rewards IH]; [reflexivity |].
  cbn [flat_map]. rewrite length_app, repeat_length, IH. cbn [length]. lia.
Qed.

(** X13.  In every reachable state the reward list is made of the four
    zeros recorded by the constructor followed by batches of four equal
    values, one batch per reward computed by a step: its length is a
    positive multiple of 4, whatever the collaborators return. *)
Theorem rewards_are_broadcast s w :
  reachable s w ->
  exists rewards,
    rewards_list s = broadcast rewards
    /\ length (rewards_list s) = (4 * (length rewards + 1))%nat.
Proof.
  intros H. destruct (reachable_rewards s w H) as [rs E].
  exists rs. split; [exact E |]. rewrite E. unfold broadcast.
  rewrite length_app, repeat_length.
  rewrite batches_length. lia.
Qed.

(** ** Binary controls in agent-driven mode *)

Definition binary (x : float) : Prop := x = 0%float \/ x = 1%float.

Lemma threshold_binary x : binary (threshold x).
Proof. unfold binary, threshold. destruct (0.5 <=? x)%float; auto. Qed.

Lemma step_agent_binary a s w :
  flag_action_from_drl s = true ->
  Forall binary (ventilation_list s) ->
  Forall binary (toplights_list s) ->
  Forall binary (heater_list s) ->
  wp (step a)
    (fun _ s' _ =>
       Forall binary (ventilation_list s')
       /\ Forall binary (toplights_list s')
       /\ Forall binary (heater_list s')) s w.
Proof.
  intros Hflag Hv Ht Hh. wp_start s w.
  wp_go; repeat split; trivial.
  all: apply Forall_app; split; trivial.
  all: unfold last_n; cbn [repeat length Nat.sub skipn].
  all: repeat (apply Forall_cons; [apply threshold_binary |]); apply Forall_nil.
Qed.

Lemma reachable_binary s w :
  reachable s w ->
  flag_action_from_drl s = true ->
  Forall binary (ventilation_list s)
  /\ Forall binary (toplights_list s)
  /\ Forall binary (heater_list s).
Proof.
  induction 1 as [cfg w0 s w E | a s w _ IH | s w _ IH | s w _ IH];
    intros Hflag.
  - pose proof (init_facts cfg w0) as P.
    unfold wp in P. rewrite E in P. cbn in P.
    destruct P as (_ & _ & (-> & -> & ->) & _).
    destruct matlab_script_isfile; repeat split; cbn [repeat];
      repeat (apply Forall_cons; [now left |]); apply Forall_nil.
  - pose proof (step_frame a s w) as F. unfold wp in F.
    destruct F as ((_ & _ & Hf & _) & _).
    rewrite Hf in Hflag. destruct (IH Hflag) as (Hv & Ht & Hh).
    exact (step_agent_binary a s w Hflag Hv Ht Hh).
  - rewrite reset_run in *. exact (IH Hflag).
  - rewrite done_self in *. exact (IH Hflag).
Qed.

(** X14.  In agent-driven mode every value ever recorded in the three
    control lists is 0 or 1, in every reachable state: the constructor
    records zeros and each step records thresholded components, whatever
    action it was given. *)
Theorem agent_controls_are_binary s w :
  reachable s w ->
  flag_action_from_drl s = true ->
  Forall binary (ventilation_list s ++ toplights_list s ++ heater_list s).
Proof.
  intros H Hflag. destruct (reachable_binary s w H Hflag) as (Hv & Ht & Hh).
  repeat (apply Forall_app; split); assumption.
Qed.

(** ** Episodes *)

(** Consecutive steps, each of which returns, with the flags they
    returned. *)
Fixpoint episode (actions : list Action) : M (list bool) :=
  match actions with
  | [] => ret []
  | a :: actions =>
      r <- step a ;;
      flags <- episode actions ;;
      ret (snd (fst (fst r)) :: flags)
  end.

Lemma episode_flags actions :
  forall s w flags s' w',
    episode actions s w = (inr flags, s', w') ->
    flags = map (fun k => max_steps s <=? current_step s + Z.of_nat k)
              (seq 1 (length actions))
    /\ current_step s' = current_step s + Z.of_nat (length actions).
Proof.
  induction actions as [| a actions IH]; intros s w flags s' w' E.
  - cbn in E. injection E as <- <- _. cbn [length seq map]. split; [trivial | lia].
  - cbn [episode] in E.
    apply bind_inr in E as (r & s1 & w1 & E1 & E).
    apply bind_inr in E as (ts & s2 & w2 & E2 & E).
    injection E as <- <- _.
    destruct (wp_run _ _ _ _ _ _ _ (step_increments a s w) E1) as [Hc Hm].
    destruct r as [[[[obs rew] t] trunc] info].
    destruct (wp_run _ _ _ _ _ _ _ (step_terminated a s w) E1) as [Ht _].
    destruct (IH _ _ _ _ _ E2) as [-> Hc2].
    cbn [length seq map fst snd]. split.
    + f_equal.
      * destruct (max_steps s <=? current_step s + Z.of_nat 1) eqn:B.
        -- apply Ht. apply Z.leb_le in B. lia.
        -- destruct t; [| reflexivity].
           apply Z.leb_gt in B. pose proof (proj1 Ht eq_refl). lia.
      * rewrite <- (seq_shift (length actions) 1), map_map.
        apply map_ext. intros k. rewrite Hc, Hm. f_equal. lia.
    + lia.
Qed.

(** X18.  In an episode, that is after a [reset()] that returned, the
    flag returned by the k-th of n consecutive returning steps is [True]
    exactly when [k >= max_steps], and the epoch counter ends at [n]: with
    [max_steps = 4] the episode terminates on the fourth step and not
    before, and later steps keep answering [True]. *)
Theorem episode_terminates_at_max_steps actions s w r s0 w0 flags s' w' :
  reset s w = (inr r, s0, w0) ->
  episode actions s0 w0 = (inr flags, s', w') ->
  flags = map (fun k => max_steps s <=? Z.of_nat k) (seq 1 (length actions))
  /\ current_step s' = Z.of_nat (length actions).
Proof.
  intros Er E. rewrite reset_run in Er. injection Er as _ <- <-.
  destruct (episode_flags actions _ _ _ _ _ E) as [-> Hc].
  cbn [current_step max_steps set_season_length_nn set_current_step] in *.
  split; [| lia]. apply map_ext. intros k. f_equal.
Qed.


(** ** A failure of the simulator *)

Lemma wp_eq {A} (m : M A) (Q : exn + A -> Self -> World -> Prop) s w r s' w' :
  m s w = (r, s', w') -> Q r s' w' -> wp m Q s w.
Proof. unfold wp. now intros ->. Qed.

Ltac simp_hyps :=
  cbn [flag_run online_measurements flag_action_from_drl first_day_gl
       season_length_gl season_length_nn max_steps mgh_data ventilation_list
       toplights_list heater_list rewards_list controls step_data excel nn
       gl current_step files log file_controls file_drl_env file_indoor
       file_fruit file_outdoor write_controls write_drl_env write_indoor
       write_fruit write_outdoor] in *.

(** What [step] saves as [indoor.mat] and [fruit.mat]: the last 3 entries
    of the times, of the temperature and of the converted humidity and CO2
    of the last 4 samples, and the last entry of each fruit series. *)
Definition indoor_of (g : GlData) : IndoorMat :=
  let temp := last_n 4 (temp_in_predicted_gl g) in
  Build_IndoorMat (last_n 3 (time_gl g)) (last_n 3 (temp_in_predicted_gl g))
    (last_n 3 (vapor_density_to_pressure temp
                 (rh_to_vapor_density temp (last_n 4 (rh_in_predicted_gl g)))))
    (last_n 3 (co2ppm_to_dens temp (last_n 4 (co2_in_predicted_gl g)))).

Definition fruit_of (g : GlData) : FruitMat :=
  Build_FruitMat (last_n 1 (time_gl g))
    (last_n 1 (fruit_leaf_predicted_gl g))
    (last_n 1 (fruit_stem_predicted_gl g))
    (last_n 1 (fruit_dw_predicted_gl g))
    (last_n 1 (fruit_cbuf_predicted_gl g))
    (last_n 1 (fruit_tcansum_predicted_gl g)).

(** The exchange files as the simulator finds them. *)
Definition handed_over (c : Controls) (g : GlData) (fs : Files) : Files :=
  write_fruit (fruit_of g) (write_indoor (indoor_of g) (write_controls c fs)).

(** The object as [step] leaves it when it calls the simulator. *)
Definition before_simulation (c : Controls) (s : Self) : Self :=
  set_season_length_nn (season_length_nn s + 4)
    (set_first_day_gl (first_day_gl s + 1 / 72)%float
       (set_season_length_gl (1 / 72)%float
          (set_heater_list (heater_list s ++ last_n 4 (c_heater c))
             (set_toplights_list
                (toplights_list s ++ last_n 4 (c_toplights c))
                (set_ventilation_list
                   (ventilation_list s ++ last_n 4 (c_ventilation c)) s))))).

(** X7.  Offline, when the predictions and the control vector of an epoch
    went through and the simulator raises, [step] raises the simulator's
    exception and leaves a half-updated object behind: the control lists,
    the start day and the dataset cursor are already advanced, the three
    exchange files are written from the last samples, but no sample, reward
    or observation is added.  The simulator was run on a 1/72-day season
    with no outdoor file. *)
Theorem step_simulator_failure a s w s2 w2 c g e :
  predicted_inside_measurements_nn a
    (set_current_step (current_step s + 1) s) w = (inr tt, s2, w2) ->
  step_controls a s2 w2 = (inr c, s2, w2) ->
  online_measurements s2 = false ->
  gl s2 = Some g ->
  DrlGlEnvironment (1 / 72)%float (first_day_gl s2 + 1 / 72)%float
    "controls.mat" None (Some "indoor.mat"%string) (Some "fruit.mat"%string)
    (handed_over c g (files w2)) = inl e ->
  step a s w
  = (inl e, before_simulation c s2,
     Build_World (handed_over c g (files w2))
       (log w2 ++ [EvMatlab (1 / 72)%float (first_day_gl s2 + 1 / 72)%float
                     None (Some "indoor.mat"%string)
                     (Some "fruit.mat"%string)])).
Proof.
  intros Hnn Hctl Honline Hgl Hsim.
  assert (P : wp (step a)
                (fun r s' w' =>
                   r = inl e /\ s' = before_simulation c s2 /\
                   w' = Build_World (handed_over c g (files w2))
                          (log w2 ++
                           [EvMatlab (1 / 72)%float
                              (first_day_gl s2 + 1 / 72)%float
                              None (Some "indoor.mat"%string)
                              (Some "fruit.mat"%string)])) s w).
  { unfold step. apply wp_bind, wp_assign. cbv beta iota.
    apply wp_bind. apply (wp_eq _ _ _ _ _ _ _ Hnn). cbv beta iota.
    apply wp_bind. apply (wp_eq _ _ _ _ _ _ _ Hctl). cbv beta iota.
    clear Hnn Hctl. unfold before_simulation, handed_over, indoor_of, fruit_of in *.
    destruct s2; destruct w2 as [[? ? ? ? ?] ?]. simp_hyps. subst.
    simp_state. wp_go.
    all: first [discriminate Hsim | injection Hsim as ->].
    repeat split. }
  unfold wp in P. destruct (step a s w) as [[r s'] w'].
  cbn in P. destruct P as (-> & -> & ->). reflexivity.
Qed.

(** ** What a returning step did *)

Definition count (p : Event -> bool) (l : list Event) : nat :=
  length (filter p l).

Lemma count_app p l l' : count p (l ++ l') = (count p l + count p l')%nat.
Proof. unfold count. now rewrite filter_app, length_app. Qed.

Definition is_prediction (e : Event) : bool :=
  match e with EvPredict _ _ => true | _ => false end.

Definition is_simulation (e : Event) : bool :=
  match e with EvMatlab _ _ _ _ _ => true | _ => false end.

Definition is_outdoor_request (e : Event) : bool :=
  match e with EvOutdoor => true | _ => false end.

Definition is_publication (e : Event) : bool :=
  match e with EvPublish _ => true | _ => false end.

Definition is_export (e : Event) : bool :=
  match e with EvExport _ => true | _ => false end.

Lemma done_returns s w b :
  outcome (done s w) = inr b ->
  log (world_of (done s w))
  = log w ++ (if b && flag_run s then export_events (output_file s) else [])
  /\ forall f,
       f <> outdoor_mat ->
       file_exists f (files w) = true ->
       file_exists f (files (world_of (done s w))) = negb (b && flag_run s).
Proof.
  intros E.
  destruct (Z_lt_le_dec (current_step s) (max_steps s)) as [Hlt | Hle].
  - rewrite (done_below s w Hlt) in *. cbn in E. injection E as <-.
    cbn. rewrite app_nil_r. split; trivial.
  - destruct (flag_run s) eqn:Hrun.
    + assert (b = true) by exact (done_reached s w b Hle E). subst b.
      destruct (done s w) as [[r s'] w'] eqn:D. cbn in E. subst r.
      cbn [world_of snd andb negb]. split.
      * rewrite (done_unfold_running s w Hrun Hle) in D.
        apply bind_inr in D as ([] & s1 & w1 & Hsave & D).
        apply bind_inr in D as ([] & s3 & w3 & Hdel & D).
        injection D as <- <-.
        pose proof (wp_run _ _ _ _ _ _ _
                      (print_and_save_effect (output_file s) s w) Hsave)
          as [-> ->].
        pose proof (wp_run _ _ _ _ _ _ _ (delete_files_effect s _) Hdel)
          as (_ & -> & _).
        reflexivity.
      * intros f Hf _.
        apply (done_cleans s w s' w' Hrun Hle D f). now left.
    + rewrite (done_training s w Hrun Hle) in *. cbn in E. injection E as <-.
      cbn. rewrite app_nil_r. split; trivial.
Qed.

Lemma step_returns a s w :
  wp (step a)
    (fun r s' w' =>
       match r with
       | inr (_, _, terminated, _, _) =>
           (count is_prediction (log w')
            = (count is_prediction (log w) + 4)%nat
            /\ count is_simulation (log w')
               = (count is_simulation (log w) + 1)%nat
            /\ count is_publication (log w')
               = (count is_publication (log w)
                  + if online_measurements s then 1 else 0)%nat
            /\ count is_outdoor_request (log w')
               = (count is_outdoor_request (log w)
                  + if online_measurements s then 1 else 0)%nat
            /\ count is_export (log w')
               = (count is_export (log w)
                  + if terminated && flag_run s then 1 else 0)%nat)
           /\ (forall f,
                  f <> outdoor_mat ->
                  file_exists f (files w')
                  = negb (terminated && flag_run s))
           /\ (flag_action_from_drl s && present a = false ->
               excel s'
               = Some (appended excel_concat (excel s)
                         (excel_of_rows (window s))))
       | inl _ => True
       end) s w.
Proof.
  unfold window. wp_start s w. wp_go; trivial.
  all: match goal with
       | H : outcome (done _ _) = inr ?b
         |- context [world_of (done ?S ?W)] =>
           destruct (done_returns S W b H) as [Hlog Hfiles]
       end.
  all: split; [| split].
  all: try (intros file Hfile; rewrite (Hfiles file Hfile);
            [reflexivity | destruct file; first [reflexivity | congruence]]).
  all: try (intros Hrec; first [discriminate Hrec | reflexivity]).
  all: rewrite Hlog; simp_state; rewrite !count_app.
  all: unfold count;
    cbn [filter length is_prediction is_simulation is_publication
         is_outdoor_request is_export export_events].
  all: repeat split;
    try (match goal with
         | |- context [if ?c then _ else _] => destruct c
         end;
         cbn [filter length is_prediction is_simulation is_publication
              is_outdoor_request is_export export_events]);
    lia.
Qed.

(** X15.  A step that returns has called the predictor exactly 4 times
    and the simulator exactly once; it has published the controls and
    asked for outdoor measurements once each when online and never when
    offline; and it has exported the workbook once exactly when it returned
    [terminated = True] in run mode. *)
Theorem step_calls_collaborators a s w obs r terminated truncated info s' w' :
  step a s w = (inr (obs, r, terminated, truncated, info), s', w') ->
  count is_prediction (log w') = (count is_prediction (log w) + 4)%nat
  /\ count is_simulation (log w') = (count is_simulation (log w) + 1)%nat
  /\ count is_publication (log w')
     = (count is_publication (log w)
        + if online_measurements s then 1 else 0)%nat
  /\ count is_outdoor_request (log w')
     = (count is_outdoor_request (log w)
        + if online_measurements s then 1 else 0)%nat
  /\ count is_export (log w')
     = (count is_export (log w)
        + if terminated && flag_run s then 1 else 0)%nat.
Proof.
  intros E. exact (proj1 (wp_run _ _ _ _ _ _ _ (step_returns a s w) E)).
Qed.

(** X16.  After a step that returns, the four exchange files
    [controls.mat], [drl-env.mat], [indoor.mat] and [fruit.mat] all exist,
    unless the step terminated the episode in run mode, in which case none
    of them does. *)
Theorem step_exchange_files a s w obs r terminated truncated info s' w' :
  step a s w = (inr (obs, r, terminated, truncated, info), s', w') ->
  forall f,
    f <> outdoor_mat ->
    file_exists f (files w') = negb (terminated && flag_run s).
Proof.
  intros E.
  exact (proj1 (proj2 (wp_run _ _ _ _ _ _ _ (step_returns a s w) E))).
Qed.

(** ** The actual buffers in dataset-driven mode *)

Lemma py_slice_nothing {A} (c : Z) (l : list A) :
  0 <= c -> py_slice c c l = [].
Proof.
  intros Hc.
  assert (H : length (py_slice c c l ++ py_slice c c l)
              = length (py_slice c c l))
    by (rewrite py_slice_adjacent; [reflexivity | lia ..]).
  rewrite length_app in H.
  destruct (py_slice c c l); [reflexivity | cbn [length] in H; lia].
Qed.

Lemma recorded_steps actions :
  forall s w e s' w',
    flag_action_from_drl s = false ->
    0 <= season_length_nn s ->
    excel s = Some e ->
    run_calls (map call_step actions) s w = (inr tt, s', w') ->
    excel s'
    = Some (excel_concat e
              (excel_of_rows
                 (py_slice (season_length_nn s)
                    (season_length_nn s + 4 * Z.of_nat (length actions))
                    (mgh_data s))))
    /\ season_length_nn s'
       = season_length_nn s + 4 * Z.of_nat (length actions).
Proof.
  induction actions as [| a actions IH]; intros s w e s' w' Hflag Hc He E.
  - cbn in E. injection E as <- _. cbn [length]. split; [| lia].
    rewrite He. replace (season_length_nn s + 4 * Z.of_nat 0)
      with (season_length_nn s) by lia.
    rewrite py_slice_nothing by exact Hc. now rewrite excel_concat_nil.
  - cbn [map run_calls] in E.
    apply bind_inr in E as (r & s1 & w1 & E1 & E).
    destruct r as [[[[obs rew] t] trunc] info].
    pose proof (wp_run _ _ _ _ _ _ _ (step_returns a s w) E1)
      as (_ & _ & Hx).
    pose proof (wp_run _ _ _ _ _ _ _ (step_cursor a s w) E1) as [Hm Hs].
    pose proof (step_frame a s w) as F. unfold wp in F. rewrite E1 in F.
    cbn in F. destruct F as ((_ & _ & Hf & _) & _).
    rewrite Hflag in Hx. specialize (Hx eq_refl). rewrite He in Hx.
    cbn [appended] in Hx.
    destruct (IH s1 w1 _ s' w' (eq_trans Hf Hflag) ltac:(lia) Hx E)
      as [-> ->].
    rewrite Hm, Hs. cbn [length]. split; [| lia].
    rewrite excel_concat_assoc, excel_of_rows_app. unfold window.
    rewrite py_slice_adjacent by lia.
    do 4 f_equal. lia.
Qed.

(** X19.  In dataset-driven mode, n consecutive steps that return append
    to the actual buffers exactly the dataset rows from the cursor [c] to
    [c + 4n], in order and with none skipped or repeated, whatever actions
    were passed; the cursor ends at [c + 4n]. *)
Theorem actual_history_is_the_dataset actions s w e s' w' :
  flag_action_from_drl s = false ->
  0 <= season_length_nn s ->
  excel s = Some e ->
  run_calls (map call_step actions) s w = (inr tt, s', w') ->
  excel s'
  = Some (excel_concat e
            (excel_of_rows
               (py_slice (season_length_nn s)
                  (season_length_nn s + 4 * Z.of_nat (length actions))
                  (mgh_data s))))
  /\ season_length_nn s'
     = season_length_nn s + 4 * Z.of_nat (length actions).
Proof. exact (recorded_steps actions s w e s' w'). Qed.

End Controller.

Arguments Build_World {OutdoorMat}.
Arguments Build_Files {OutdoorMat}.
Arguments files {OutdoorMat}.
Arguments log {OutdoorMat}.
Arguments file_controls {OutdoorMat}.
Arguments file_exists {OutdoorMat}.
Arguments outcome {OutdoorMat A}.
Arguments state_of {OutdoorMat A}.
Arguments world_of {OutdoorMat A}.
Arguments __init__ {OutdoorMat collaborators}.
Arguments step {OutdoorMat collaborators}.
Arguments step_controls {OutdoorMat}.
Arguments load_excel_data {OutdoorMat}.
Arguments reset {OutdoorMat}.
Arguments observation {OutdoorMat}.
Arguments get_reward {OutdoorMat}.
Arguments done {OutdoorMat collaborators}.
Arguments print_and_save_all_data {OutdoorMat collaborators}.
Arguments run_calls {OutdoorMat collaborators}.
Arguments reachable {OutdoorMat collaborators}.
Arguments well_behaved {OutdoorMat collaborators}.

(** * A concrete greenhouse

    A small dataset, a simulator that grows the fruit by a quarter of a
    unit per sub-step, a predictor that repeats the measured temperature:
    enough to run the controller and to evaluate the theorems above. *)

Definition demo_row (i : nat) : Row :=
  let x := float_of_nat i in
  {| r_time := (300 * x)%float;
     r_global_out := (100 + x)%float;
     r_global_in := (10 + x)%float;
     r_temp_in := (20 + x / 8)%float;
     r_temp_out := (12 + x / 8)%float;
     r_rh_in := (60 + x / 4)%float;
     r_rh_out := (70 + x / 4)%float;
     r_co2_in := (400 + x)%float;
     r_co2_out := (410 + x)%float;
     r_toplights := if Nat.even i then 1%float else 0%float;
     r_ventilation := 0.5%float;
     r_heater := 0%float |}.

Definition demo_dataset : list Row := map demo_row (seq 0 40).

(** The fruit dry weight restarts from the last value handed over in
    [fruit.mat]; [co2] is the CO2 level the simulator reports. *)
Definition demo_simulation (co2 : float) (fs : Files unit)
    : GlData :=
  let dw :=
    match file_fruit unit fs with
    | Some f =>
        match index_neg 1 (f_fruit_dw f) with
        | Some x => x
        | None => 0%float
        end
    | None => 0%float
    end in
  {| time_gl := [0; 300; 600; 900; 1200]%float;
     co2_in_predicted_gl := repeat co2 5;
     temp_in_predicted_gl := [20; 20.5; 21; 21.5; 22]%float;
     rh_in_predicted_gl := [60; 60; 61; 61; 62]%float;
     PAR_in_predicted_gl := [5; 5; 5; 5; 5]%float;
     fruit_leaf_predicted_gl := [1; 1; 1; 1; 1]%float;
     fruit_stem_predicted_gl := [2; 2; 2; 2; 2]%float;
     fruit_dw_predicted_gl :=
       [dw; dw + 0.25; dw + 0.5; dw + 0.75; dw + 1]%float;
     fruit_cbuf_predicted_gl := [3; 3; 3; 3; 3]%float;
     fruit_tcansum_predicted_gl := [4; 4; 4; 4; 4]%float |}.

Definition demo_collaborators (co2 : float) : Collaborators unit :=
  {| read_excel := demo_dataset;
     matlab_script_isfile := true;
     model_predict := fun _ rows => inr (map r_temp_in rows);
     DrlGlEnvironment := fun _ _ _ _ _ _ fs => inr (demo_simulation co2 fs);
     co2ppm_to_dens := fun _ c => c;
     rh_to_vapor_density := fun _ rh => rh;
     vapor_density_to_pressure := fun _ v => v;
     get_outdoor_measurements := fun _ => inr tt;
     calculate_metrics :=
       fun y_true y_pred =>
         if (length y_true =? length y_pred)%nat
         then inr (1%float, 0%float)
         else inl ValueError |}.

(** The simulator reports 400 ppm. *)
Definition demo : Collaborators unit := demo_collaborators 400.

(** The same greenhouse with a CO2 sensor gone wild: the value is finite,
    and beyond the range of [float32]. *)
Definition saturated : Collaborators unit := demo_collaborators 1e39.

Definition empty_world : World unit :=
  Build_World (Build_Files None None None None None) [].

(** [env_config = {}] and [env_config = {"flag_action_from_drl": True}]. *)
Definition default_config : EnvConfig :=
  Build_EnvConfig None None None None None None None.

Definition agent_config : EnvConfig :=
  Build_EnvConfig None None (Some true) None None None None.

(** [CalibratorModel(env_config)] in the empty working directory. *)
Definition constructed (c : Collaborators unit) (env_config : EnvConfig)
    : Self * World unit :=
  let x := __init__ (collaborators := c) env_config empty_world in
  (state_of x, world_of x).

(** The environment after [calls], from the constructed one. *)
Definition driven (c : Collaborators unit) (env_config : EnvConfig)
    (calls : list Call) : (exn + unit) * Self * World unit :=
  run_calls (collaborators := c) calls
    (fst (constructed c env_config)) (snd (constructed c env_config)).

Definition four_steps : list Call :=
  [call_reset; call_step None; call_step None; call_step None;
   call_step None].

Definition count_exports (l : list Event) : nat :=
  length (filter (fun e => match e with EvExport _ => true | _ => false end)
            l).

(** The flag returned by a call of [step]. *)
Definition terminated (r : exn + StepResult) : option bool :=
  match r with
  | inr (_, _, t, _, _) => Some t
  | inl _ => None
  end.

Definition demo_state : Self := fst (constructed demo default_config).
Definition demo_world : World unit := snd (constructed demo default_config).
Definition agent_state : Self := fst (constructed demo agent_config).
Definition agent_world : World unit := snd (constructed demo agent_config).
Definition saturated_state : Self :=
  fst (constructed saturated default_config).
Definition saturated_world : World unit :=
  snd (constructed saturated default_config).

(** After [reset()] and three, then four, calls of [step(None)]. *)
Definition three_steps : list Call :=
  [call_reset; call_step None; call_step None; call_step None].
Definition state3 : Self := state_of (driven demo default_config three_steps).
Definition world3 : World unit :=
  world_of (driven demo default_config three_steps).
Definition state4 : Self := state_of (driven demo default_config four_steps).
Definition world4 : World unit :=
  world_of (driven demo default_config four_steps).

(** An object at epoch 3 whose fruit dry weight went from 1.5 to 1.75. *)
Definition weighed : Self :=
  set_gl
    (Some (Build_GlData [] [] [] [] [] [] [] [1; 1.5; 1.75]%float [] []))
    (set_current_step 3 (new_self default_config)).

Lemma demo_well_behaved : well_behaved (collaborators := demo).
Proof.
  split; [reflexivity | split].
  - intros sl fd cf o i f fs d [= <-].
    unfold gl_sizes. cbn. repeat constructor.
  - intros target rows l [= <-]. apply length_map.
Qed.

Lemma demo_constructed :
  __init__ (collaborators := demo) default_config empty_world
  = (inr tt, demo_state, demo_world).
Proof. vm_compute. reflexivity. Qed.

Lemma demo_reachable : reachable (collaborators := demo) demo_state demo_world.
Proof. exact (reach_init unit default_config empty_world _ _ demo_constructed). Qed.

Lemma get_reward_spec_witness :
  get_reward 1 0 0 (set_current_step 0 weighed) empty_world
  = (inr 0%float, set_current_step 0 weighed, empty_world) /\
  get_reward 1 0 0 weighed empty_world
  = (inr (1 * (1.75 - 1.5) - (0.005 * 1 + 0.015 * 0 + 0.001 * 0))%float,
     weighed, empty_world).
Proof.
  split.
  - apply (proj1 (get_reward_spec unit)). reflexivity.
  - apply (proj2 (get_reward_spec unit)) with
      (g := Build_GlData [] [] [] [] [] [] [] [1; 1.5; 1.75]%float [] [])
      (l := [1%float]); reflexivity.
Defined.


Lemma observation_spec_witness :
  reachable (collaborators := demo) demo_state demo_world /\
  observation demo_state demo_world
  = (inr [400; 22; 62; 5; 1; 2; 1; 3; 4]%float, demo_state, demo_world).
Proof.
  split; [exact demo_reachable |].
  destruct (observation_spec unit demo_state demo_world demo_reachable)
    as (g & co2 & temp & rh & par & leaf & stem & dw & cbuf & tcansum
        & Hg & H1 & H2 & H3 & H4 & H5 & H6 & H7 & H8 & H9 & E).
  rewrite E. vm_compute in Hg. injection Hg as <-.
  vm_compute in H1, H2, H3, H4, H5, H6, H7, H8, H9.
  injection H1 as <-. injection H2 as <-. injection H3 as <-.
  injection H4 as <-. injection H5 as <-. injection H6 as <-.
  injection H7 as <-. injection H8 as <-. injection H9 as <-.
  vm_compute. reflexivity.
Defined.

Lemma history_lengths_witness : history_sized 20 state4.
Proof.
  apply (history_lengths unit (collaborators := demo) default_config
           empty_world demo_state demo_world four_steps state4 world4).
  - exact demo_well_behaved.
  - vm_compute. discriminate.
  - exact demo_constructed.
  - vm_compute. reflexivity.
  - vm_compute. discriminate.
Defined.


Lemma reset_spec_witness :
  outcome (observation demo_state demo_world)
  = inr [400; 22; 62; 5; 1; 2; 1; 3; 4]%float /\
  exists s',
    reset demo_state demo_world
    = (inr ([400; 22; 62; 5; 1; 2; 1; 3; 4]%float, []), s', demo_world) /\
    current_step s' = 0 /\
    season_length_nn s' = season_length_nn demo_state + 4 /\
    observation s' demo_world
    = (inr [400; 22; 62; 5; 1; 2; 1; 3; 4]%float, s', demo_world).
Proof.
  split; [vm_compute; reflexivity |].
  apply (reset_spec unit demo_state demo_world).
  vm_compute. reflexivity.
Defined.


Lemma done_exports_at_every_call_witness :
  world_of (done (collaborators := demo) demo_state demo_world) = demo_world
  /\ log (world_of (done (collaborators := demo) state4 world4))
     = log world4 ++ export_events (output_file state4).
Proof.
  split.
  - apply (proj1 (done_exports_at_every_call unit (collaborators := demo))).
    left. vm_compute. reflexivity.
  - apply (proj1 (proj2
             (done_exports_at_every_call unit (collaborators := demo)))).
    + vm_compute. reflexivity.
    + vm_compute. discriminate.
    + vm_compute. reflexivity.
Defined.

Lemma step_ignores_action_witness :
  flag_action_from_drl demo_state = false /\
  step (collaborators := demo) (Some [1; 1; 1]%float) demo_state demo_world
  = step (collaborators := demo) None demo_state demo_world.
Proof.
  split; [reflexivity |].
  apply (step_ignores_action_in_dataset_mode unit (collaborators := demo)).
  reflexivity.
Defined.

(** ** Where the code parts from the specification *)

(** C3.  A reachable state, every authoritative value finite, and an
    observation whose first component is infinite: the simulator's last CO2
    value, 1e39, does not survive the cast to [float32]. *)
Lemma observation_not_finite :
  reachable (collaborators := saturated) saturated_state saturated_world /\
  option_map co2_in_predicted_gl (gl saturated_state)
  = Some [1e39; 1e39; 1e39; 1e39]%float /\
  is_finite 1e39 = true /\
  outcome (observation saturated_state saturated_world)
  = inr [infinity; 22; 62; 5; 1; 2; 1; 3; 4]%float /\
  is_finite infinity = false /\
  (infinity =? 1e39)%float = false.
Proof.
  split.
  - apply (reach_init unit (collaborators := saturated) default_config
             empty_world).
    vm_compute. reflexivity.
  - repeat split; vm_compute; reflexivity.
Qed.

(** C4.  The buffers after the construction alone, and after [reset()]
    and 4 successful [step()] calls: 4 and 20 entries, not 0 and 16. *)
Lemma history_after_four_steps :
  (length (rewards_list demo_state) = 4
   /\ option_map gl_sizes (gl demo_state) = Some (repeat 4 10)
   /\ option_map nn_sizes (nn demo_state) = Some (repeat 4 4)
   /\ option_map excel_sizes (excel demo_state) = Some (repeat 4 12))%nat
  /\ outcome (driven demo default_config four_steps) = inr tt
  /\ count_steps four_steps = 4%nat
  /\ (length (rewards_list state4) = 20
      /\ option_map gl_sizes (gl state4) = Some (repeat 20 10)
      /\ option_map nn_sizes (nn state4) = Some (repeat 20 4)
      /\ option_map excel_sizes (excel state4) = Some (repeat 20 12))%nat
  /\ length (rewards_list state4) <> (4 * count_steps four_steps)%nat.
Proof.
  repeat split; try (vm_compute; reflexivity).
  vm_compute. discriminate.
Qed.


(** C8.  With [max_steps = 4], the fourth [step] answers [True] and
    exports once.  A second call of [done()] exports again before failing
    on the files that are gone, and a fifth [step] exports again and
    answers [True] again. *)
Lemma done_exports_again :
  count_exports (log world3) = 0%nat
  /\ terminated (outcome (step (collaborators := demo) None state3 world3))
     = Some true
  /\ count_exports (log world4) = 1%nat
  /\ outcome (done (collaborators := demo) state4 world4)
     = inl FileNotFoundError
  /\ count_exports (log (world_of (done (collaborators := demo) state4
                                     world4))) = 2%nat
  /\ terminated (outcome (step (collaborators := demo) None state4 world4))
     = Some true
  /\ count_exports
       (log (world_of (step (collaborators := demo) None state4 world4)))
     = 2%nat.
Proof. repeat split; vm_compute; reflexivity. Qed.

(** * The further properties on the concrete greenhouse *)

(** The components of the tuple returned by a call of [step] that
    returned. *)
Definition result_of (x : (exn + StepResult) * Self * World unit)
    : StepResult :=
  match outcome x with
  | inr r => r
  | inl _ => ([], 0%float, false, false, [])
  end.

Definition obs_of (r : StepResult) : list float := fst (fst (fst (fst r))).
Definition reward_of (r : StepResult) : float := snd (fst (fst (fst r))).
Definition terminated_of (r : StepResult) : bool := snd (fst (fst r)).
Definition truncated_of (r : StepResult) : bool := snd (fst r).
Definition info_of (r : StepResult) : Info := snd r.

(** The first step after the construction, and the fourth one of an
    episode. *)
Definition first_step : (exn + StepResult) * Self * World unit :=
  step (collaborators := demo) None demo_state demo_world.

Definition fourth_step : (exn + StepResult) * Self * World unit :=
  step (collaborators := demo) None state3 world3.

(** The actual buffers after the construction. *)
Definition demo_excel : ExcelData :=
  match excel demo_state with
  | Some e => e
  | None => excel_of_rows []
  end.


(** An object at epoch 3 with a single fruit dry weight. *)
Definition underfed : Self :=
  set_gl (Some (Build_GlData [] [] [] [] [] [] [] [1.5]%float [] []))
    (set_current_step 3 (new_self default_config)).


(** The greenhouse with a predictor that raises, with a simulator that
    raises, and without the MATLAB script. *)
Definition broken_predictor : Collaborators unit :=
  {| read_excel := demo_dataset;
     matlab_script_isfile := true;
     model_predict := fun _ _ => inl ValueError;
     DrlGlEnvironment := fun _ _ _ _ _ _ fs => inr (demo_simulation 400 fs);
     co2ppm_to_dens := fun _ c => c;
     rh_to_vapor_density := fun _ rh => rh;
     vapor_density_to_pressure := fun _ v => v;
     get_outdoor_measurements := fun _ => inr tt;
     calculate_metrics := fun _ _ => inr (1%float, 0%float) |}.

Definition broken_simulator : Collaborators unit :=
  {| read_excel := demo_dataset;
     matlab_script_isfile := true;
     model_predict := fun _ rows => inr (map r_temp_in rows);
     DrlGlEnvironment := fun _ _ _ _ _ _ _ => inl EngineError;
     co2ppm_to_dens := fun _ c => c;
     rh_to_vapor_density := fun _ rh => rh;
     vapor_density_to_pressure := fun _ v => v;
     get_outdoor_measurements := fun _ => inr tt;
     calculate_metrics := fun _ _ => inr (1%float, 0%float) |}.


(** The first epoch up to the call of the simulator. *)
Definition predicted : (exn + unit) * Self * World unit :=
  predicted_inside_measurements_nn unit (collaborators := broken_simulator)
    None (set_current_step (current_step demo_state + 1) demo_state)
    demo_world.

Definition demo_controls : Controls :=
  match outcome (step_controls None (state_of predicted) (world_of predicted))
  with
  | inr c => c
  | inl _ => Build_Controls [] [] [] []
  end.

Definition demo_gl : GlData :=
  match gl demo_state with
  | Some g => g
  | None => Build_GlData [] [] [] [] [] [] [] [] [] []
  end.

(** The object of the third epoch with its counter at [max_steps], and
    the working directory once [done()] has cleaned it. *)
Definition ready : Self := set_current_step 4 state3.

Definition cleaned : World unit :=
  world_of (done (collaborators := demo) ready world3).

(** An episode of five steps. *)
Definition five_steps : (exn + list bool) * Self * World unit :=
  episode unit (collaborators := demo) (repeat None 5)
    (state_of (reset demo_state demo_world)) demo_world.

Lemma observation_succeeds_iff_witness :
  observable (gl demo_state)
  /\ observation (new_self default_config) empty_world
     = (inl AttributeError, new_self default_config, empty_world).
Proof.
  split.
  - apply (proj1 (observation_succeeds_iff unit demo_state demo_world)).
    exists [400; 22; 62; 5; 1; 2; 1; 3; 4]%float. vm_compute. reflexivity.
  - apply (proj1 (proj2 (observation_succeeds_iff unit
                           (new_self default_config) empty_world))).
    reflexivity.
Defined.

Lemma get_reward_needs_two_samples_witness :
  current_step underfed <> 0
  /\ get_reward 1 0 0 underfed empty_world
     = (inl IndexError, underfed, empty_world).
Proof.
  assert (H : current_step underfed <> 0) by (vm_compute; discriminate).
  split; [exact H |].
  apply (proj2 (get_reward_needs_two_samples unit underfed empty_world
                  1 0 0 H))
    with (g := Build_GlData [] [] [] [] [] [] [] [1.5]%float [] []).
  - reflexivity.
  - cbn. lia.
Defined.



Lemma dataset_controls_are_the_window_witness :
  exists s',
    load_excel_data None demo_state demo_world = (inr tt, s', demo_world) /\
    step_data s' = Some (window demo_state) /\
    step_controls None s' demo_world
    = (inr (Build_Controls [300; 600; 900; 1200]%float
              (map r_ventilation (window demo_state))
              (map r_toplights (window demo_state))
              (map r_heater (window demo_state))),
       s', demo_world).
Proof.
  apply (dataset_controls_are_the_window unit None demo_state demo_world).
  - vm_compute. reflexivity.
  - vm_compute. discriminate.
  - vm_compute. discriminate.
Defined.

Lemma step_predictor_failure_witness :
  step (collaborators := broken_predictor) None demo_state demo_world
  = (inl ValueError,
     state_of (load_excel_data None (set_current_step 1 demo_state)
                 demo_world),
     Build_World (files demo_world)
       (log demo_world ++ [EvPredict "global in" (window demo_state)])).
Proof.
  apply (step_predictor_failure unit (collaborators := broken_predictor)).
  - vm_compute. reflexivity.
  - vm_compute. reflexivity.
  - reflexivity.
Defined.

Lemma step_simulator_failure_witness :
  outcome (step (collaborators := broken_simulator) None demo_state
             demo_world)
  = inl EngineError
  /\ rewards_list
       (state_of (step (collaborators := broken_simulator) None demo_state
                    demo_world))
     = rewards_list demo_state
  /\ season_length_nn
       (state_of (step (collaborators := broken_simulator) None demo_state
                    demo_world))
     = season_length_nn demo_state + 4.
Proof.
  assert (E : step (collaborators := broken_simulator) None demo_state
                demo_world
              = (inl EngineError,
                 before_simulation demo_controls (state_of predicted),
                 Build_World
                   (handed_over unit (collaborators := broken_simulator)
                      demo_controls demo_gl (files (world_of predicted)))
                   (log (world_of predicted)
                    ++ [EvMatlab (1 / 72)%float
                          (first_day_gl (state_of predicted) + 1 / 72)%float
                          None (Some "indoor.mat"%string)
                          (Some "fruit.mat"%string)]))).
  { apply (step_simulator_failure unit (collaborators := broken_simulator)
             None demo_state demo_world (state_of predicted)
             (world_of predicted) demo_controls demo_gl EngineError).
    - vm_compute. reflexivity.
    - vm_compute. reflexivity.
    - vm_compute. reflexivity.
    - vm_compute. reflexivity.
    - reflexivity. }
  rewrite E. repeat split; vm_compute; reflexivity.
Defined.

Lemma delete_files_spec_witness :
  file_exists controls_mat (files demo_world) = true
  /\ file_exists controls_mat
       (files (world_of (delete_files unit demo_state demo_world))) = false
  /\ outcome (delete_files unit state3 world3) = inr tt.
Proof.
  split; [vm_compute; reflexivity | split].
  - apply (proj1 (proj2 (proj2 (delete_files_spec unit demo_state
                                  demo_world)))).
    vm_compute. reflexivity.
  - apply (proj1 (delete_files_spec unit state3 world3)).
    intros f [Hf | Hf].
    + destruct f; [vm_compute; reflexivity .. | congruence].
    + vm_compute in Hf. discriminate Hf.
Defined.

Lemma done_is_not_reentrant_witness :
  outcome (done (collaborators := demo) ready cleaned)
  = inl FileNotFoundError.
Proof.
  apply (done_is_not_reentrant unit (collaborators := demo) ready world3
           ready cleaned).
  - vm_compute. reflexivity.
  - vm_compute. discriminate.
  - vm_compute. reflexivity.
Defined.


Lemma init_fresh_witness :
  current_step demo_state = 0 /\ season_length_nn demo_state = 4.
Proof.
  destruct (init_fresh unit (collaborators := demo) default_config
              empty_world demo_state demo_world demo_constructed)
    as (H1 & _ & _ & _ & _ & _ & _ & H8).
  split; [exact H1 | exact H8].
Defined.

Lemma rewards_are_broadcast_witness :
  exists rewards,
    rewards_list demo_state = broadcast rewards
    /\ length (rewards_list demo_state) = (4 * (length rewards + 1))%nat.
Proof.
  exact (rewards_are_broadcast unit (collaborators := demo) demo_state
           demo_world demo_reachable).
Defined.

Lemma agent_controls_are_binary_witness :
  Forall binary
    (ventilation_list agent_state ++ toplights_list agent_state
     ++ heater_list agent_state).
Proof.
  apply (agent_controls_are_binary unit (collaborators := demo) agent_state
           agent_world).
  - apply (reach_init unit (collaborators := demo) agent_config empty_world).
    vm_compute. reflexivity.
  - vm_compute. reflexivity.
Defined.

Lemma step_calls_collaborators_witness :
  count is_prediction (log (world_of first_step))
  = (count is_prediction (log demo_world) + 4)%nat
  /\ count is_simulation (log (world_of first_step))
     = (count is_simulation (log demo_world) + 1)%nat
  /\ count is_publication (log (world_of first_step))
     = (count is_publication (log demo_world) + 0)%nat
  /\ count is_outdoor_request (log (world_of first_step))
     = (count is_outdoor_request (log demo_world) + 0)%nat
  /\ count is_export (log (world_of first_step))
     = (count is_export (log demo_world) + 0)%nat.
Proof.
  apply (step_calls_collaborators unit (collaborators := demo) None
           demo_state demo_world (obs_of (result_of first_step))
           (reward_of (result_of first_step))
           (terminated_of (result_of first_step))
           (truncated_of (result_of first_step))
           (info_of (result_of first_step)) (state_of first_step)
           (world_of first_step)).
  vm_compute. reflexivity.
Defined.

Lemma step_exchange_files_witness :
  file_exists controls_mat (files (world_of fourth_step)) = false
  /\ file_exists drl_env_mat (files (world_of fourth_step)) = false
  /\ file_exists indoor_mat (files (world_of fourth_step)) = false
  /\ file_exists fruit_mat (files (world_of fourth_step)) = false
  /\ file_exists fruit_mat (files (world_of first_step)) = true.
Proof.
  assert (H4 : forall f,
             f <> outdoor_mat ->
             file_exists f (files (world_of fourth_step))
             = negb (terminated_of (result_of fourth_step)
                     && flag_run state3)).
  { apply (step_exchange_files unit (collaborators := demo) None state3
             world3 (obs_of (result_of fourth_step))
             (reward_of (result_of fourth_step))
             (terminated_of (result_of fourth_step))
             (truncated_of (result_of fourth_step))
             (info_of (result_of fourth_step)) (state_of fourth_step)
             (world_of fourth_step)).
    vm_compute. reflexivity. }
  assert (H1 : forall f,
             f <> outdoor_mat ->
             file_exists f (files (world_of first_step))
             = negb (terminated_of (result_of first_step)
                     && flag_run demo_state)).
  { apply (step_exchange_files unit (collaborators := demo) None demo_state
             demo_world (obs_of (result_of first_step))
             (reward_of (result_of first_step))
             (terminated_of (result_of first_step))
             (truncated_of (result_of first_step))
             (info_of (result_of first_step)) (state_of first_step)
             (world_of first_step)).
    vm_compute. reflexivity. }
  split; [| split; [| split; [| split]]].
  - rewrite H4; [vm_compute; reflexivity | discriminate].
  - rewrite H4; [vm_compute; reflexivity | discriminate].
  - rewrite H4; [vm_compute; reflexivity | discriminate].
  - rewrite H4; [vm_compute; reflexivity | discriminate].
  - rewrite H1; [vm_compute; reflexivity | discriminate].
Defined.

Lemma episode_terminates_at_max_steps_witness :
  outcome five_steps = inr [false; false; false; true; true]
  /\ current_step (state_of five_steps) = 5.
Proof.
  destruct (episode_terminates_at_max_steps unit (collaborators := demo)
              (repeat None 5) demo_state demo_world
              ([400; 22; 62; 5; 1; 2; 1; 3; 4]%float, [])
              (state_of (reset demo_state demo_world)) demo_world
              [false; false; false; true; true] (state_of five_steps)
              (world_of five_steps))
    as [_ Hc].
  - vm_compute. reflexivity.
  - vm_compute. reflexivity.
  - split; [vm_compute; reflexivity | exact Hc].
Defined.

Lemma actual_history_is_the_dataset_witness :
  excel (state_of (run_calls (collaborators := demo)
                     [call_step None; call_step (Some [1; 1; 1]%float)]
                     demo_state demo_world))
  = Some (excel_concat demo_excel
            (excel_of_rows (py_slice 4 12 demo_dataset))).
Proof.
  apply (actual_history_is_the_dataset unit (collaborators := demo)
           [None; Some [1; 1; 1]%float] demo_state demo_world demo_excel
           (state_of (run_calls (collaborators := demo)
                        [call_step None; call_step (Some [1; 1; 1]%float)]
                        demo_state demo_world))
           (world_of (run_calls (collaborators := demo)
                        [call_step None; call_step (Some [1; 1; 1]%float)]
                        demo_state demo_world))).
  - vm_compute. reflexivity.
  - vm_compute. discriminate.
  - vm_compute. reflexivity.
  - vm_compute. reflexivity.
Defined.
